(** * The POC provider of virtual-kubelet: pod translation and lifecycle adapter

    A shallow embedding of [providers/poc] (the provider, its package-level
    translation functions and the helpers it relies on) together with the
    properties of its pod-translation and lifecycle layer.

    Conventions of the embedding.
    - A Go struct is a record, one module per struct, with the Go field
      names; [zero] is the struct's zero value.
    - A Go [string]-typed enumeration ([RestartPolicy], [PodPhase]) stays a
      string, as in the Kubernetes API types.
    - A Go [map[string]T] is a [gmap string T]; a slice is a [list] (a nil
      slice and an empty slice are both [[]]).
    - A Go [error] is [option error], [None] being [nil].
    - The remote client [rc] is an external collaborator: every call made
      through it is a [request] node of a program tree, answered by a
      handler.  Calls to [log] are not modelled. *)

From Stdlib Require Import ZArith Ascii String.
From stdpp Require Import base strings list gmap.

Local Open Scope Z_scope.
Local Open Scope string_scope.
Local Open Scope list_scope.

(** ** Kubernetes API types used by the provider

    These come from [k8s.io/api/core/v1], [k8s.io/apimachinery] and
    [k8s.io/apimachinery/pkg/api/resource].  Nested structures the provider
    only carries around are kept small. *)

Module Format.
Inductive t := DecimalSI | BinarySI | DecimalExponent.
End Format.

Module Quantity.
(** A quantity is kept as its value in thousandths, with the notation it
    was written in. *)
Record t := mk { MilliValue : Z; Format : Format.t }.
Definition zero : t := mk 0 Format.DecimalSI.
Definition Value (q : t) : Z := - ((- MilliValue q) / 1000).
End Quantity.

(** [corev1.ResourceList] is [map[ResourceName]resource.Quantity]. *)
Abbreviation ResourceList := (gmap string Quantity.t).

Module ResourceRequirements.
Record t := mk { Limits : ResourceList; Requests : ResourceList }.
Definition zero : t := mk ∅ ∅.
End ResourceRequirements.

Module ContainerPort.
Record t := mk {
  Name : string;
  HostPort : Z;
  ContainerPort : Z;
  Protocol : string;
  HostIP : string
}.
End ContainerPort.

Module EnvVar.
Record t := mk { Name : string; Value : string; ValueFrom : option string }.
End EnvVar.

Module VolumeMount.
Record t := mk {
  Name : string;
  ReadOnly : bool;
  MountPath : string;
  SubPath : string
}.
End VolumeMount.

Module Probe.
Record t := mk {
  Exec : list string;
  InitialDelaySeconds : Z;
  PeriodSeconds : Z
}.
End Probe.

Module Lifecycle.
Record t := mk { PostStart : option (list string); PreStop : option (list string) }.
End Lifecycle.

Module SecurityContext.
Record t := mk {
  Privileged : option bool;
  RunAsUser : option Z;
  ReadOnlyRootFilesystem : option bool
}.
End SecurityContext.

Module Container.
Record t := mk {
  Name : string;
  Image : string;
  Command : list string;
  Args : list string;
  WorkingDir : string;
  Ports : list ContainerPort.t;
  EnvFrom : list string;
  Env : list EnvVar.t;
  Resources : ResourceRequirements.t;
  VolumeMounts : list VolumeMount.t;
  VolumeDevices : list string;
  LivenessProbe : option Probe.t;
  ReadinessProbe : option Probe.t;
  Lifecycle : option Lifecycle.t;
  TerminationMessagePath : string;
  TerminationMessagePolicy : string;
  ImagePullPolicy : string;
  SecurityContext : option SecurityContext.t;
  Stdin : bool;
  StdinOnce : bool;
  TTY : bool
}.
Definition zero : t :=
  mk "" "" [] [] "" [] [] [] ResourceRequirements.zero [] [] None None None
     "" "" "" None false false false.
End Container.

Module Volume.
Record t := mk { Name : string; VolumeSource : string }.
End Volume.

(** [corev1.RestartPolicy] and [corev1.PodPhase] are string types. *)
Abbreviation RestartPolicy := string (only parsing).
Definition RestartPolicyAlways : RestartPolicy := "Always".
Definition RestartPolicyOnFailure : RestartPolicy := "OnFailure".
Definition RestartPolicyNever : RestartPolicy := "Never".

Abbreviation PodPhase := string (only parsing).
Definition PodPending : PodPhase := "Pending".
Definition PodRunning : PodPhase := "Running".
Definition PodSucceeded : PodPhase := "Succeeded".
Definition PodFailed : PodPhase := "Failed".
Definition PodUnknown : PodPhase := "Unknown".

Module TypeMeta.
Record t := mk { Kind : string; APIVersion : string }.
Definition zero : t := mk "" "".
End TypeMeta.

Module ObjectMeta.
Record t := mk {
  Name : string;
  GenerateName : string;
  Namespace : string;
  UID : string;
  ResourceVersion : string;
  DeletionGracePeriodSeconds : option Z;
  Labels : gmap string string;
  Annotations : gmap string string
}.
Definition zero : t := mk "" "" "" "" "" None ∅ ∅.
End ObjectMeta.

Module PodSpec.
Record t := mk {
  Volumes : list Volume.t;
  InitContainers : list Container.t;
  Containers : list Container.t;
  RestartPolicy : RestartPolicy;
  TerminationGracePeriodSeconds : option Z;
  ActiveDeadlineSeconds : option Z;
  DNSPolicy : string;
  NodeSelector : gmap string string;
  ServiceAccountName : string;
  NodeName : string;
  HostNetwork : bool
}.
Definition zero : t := mk [] [] [] "" None None "" ∅ "" "" false.
End PodSpec.

Module PodStatus.
Record t := mk {
  Phase : PodPhase;
  Message : string;
  Reason : string;
  HostIP : string;
  PodIP : string;
  StartTime : option Z
}.
Definition zero : t := mk "" "" "" "" "" None.
End PodStatus.

Module Pod.
Record t := mk {
  TypeMeta : TypeMeta.t;
  ObjectMeta : ObjectMeta.t;
  Spec : PodSpec.t;
  Status : PodStatus.t
}.
Definition zero : t :=
  mk TypeMeta.zero ObjectMeta.zero PodSpec.zero PodStatus.zero.
(** Promoted fields of the embedded [ObjectMeta]. *)
Definition Name (p : t) : string := ObjectMeta.Name (ObjectMeta p).
Definition Namespace (p : t) : string := ObjectMeta.Namespace (ObjectMeta p).
End Pod.

Module PodList.
Record t := mk { TypeMeta : TypeMeta.t; ResourceVersion : string; Items : list Pod.t }.
Definition zero : t := mk TypeMeta.zero "" [].
End PodList.

Module GetOptions.
Record t := mk { ResourceVersion : string }.
Definition zero : t := mk "".
End GetOptions.

Module DeleteOptions.
Record t := mk {
  GracePeriodSeconds : option Z;
  PropagationPolicy : option string
}.
Definition zero : t := mk None None.
End DeleteOptions.

Module ListOptions.
Record t := mk {
  LabelSelector : string;
  FieldSelector : string;
  Limit : Z
}.
Definition zero : t := mk "" "" 0.
End ListOptions.

(** ** Errors *)

(** Reasons of a failed API request ([metav1.StatusReason]). *)
Inductive StatusReason :=
| StatusReasonNotFound
| StatusReasonAlreadyExists
| StatusReasonForbidden
| StatusReasonTimeout
| StatusReasonInternalError.

(** Modelled from the spec: the package [errdefs] of this repository, of
    which the provider uses [NotFoundf].  It marks an error with the
    semantic kind "entity does not exist", which callers test with
    [IsNotFound]; no other error carries the mark.  The remaining
    constructors are the errors the provider meets: those built with
    [fmt.Errorf], the status errors of the remote API and the transport
    failures of the client. *)
Inductive error :=
| ErrNotFound (msg : string)
| ErrPlain (msg : string)
| ErrStatus (reason : StatusReason) (msg : string)
| ErrTransport (msg : string).

Module errdefs.
Definition NotFoundf (msg : string) : error := ErrNotFound msg.
Definition IsNotFound (e : error) : bool :=
  match e with ErrNotFound _ => true | _ => false end.
End errdefs.

(** ** The remote client

    The typed client of [kubernetes.Interface] reached through
    [rc.CoreV1().Pods(ns)].  Its [Get], [Create] and [Update] allocate the
    result before the request is sent, so the pod pointer they return is
    never nil: a failed request leaves the zero pod behind it. *)

Inductive request :=
| PodsGet (ns name : string) (opts : GetOptions.t)
| PodsCreate (ns : string) (pod : Pod.t)
| PodsUpdate (ns : string) (pod : Pod.t)
| PodsDelete (ns name : string) (opts : DeleteOptions.t)
| PodsList (ns : string) (opts : ListOptions.t).

Definition response (r : request) : Type :=
  match r with
  | PodsGet _ _ _ | PodsCreate _ _ | PodsUpdate _ _ => (Pod.t * option error)%type
  | PodsDelete _ _ _ => option error
  | PodsList _ _ => (PodList.t * option error)%type
  end.

(** Programs that talk to the remote client. *)
Inductive prog (A : Type) : Type :=
| Ret (a : A)
| Call (r : request) (k : response r → prog A).
Arguments Ret {A} a.
Arguments Call {A} r k.

Fixpoint bind {A B} (p : prog A) (f : A → prog B) : prog B :=
  match p with
  | Ret a => f a
  | Call r k => Call r (λ x, bind (k x) f)
  end.

Definition call (r : request) : prog (response r) := Call r Ret.

#[export] Instance prog_ret : MRet prog := @Ret.
#[export] Instance prog_bind : MBind prog := λ A B f p, bind p f.

(** A handler answers every request from a state of the remote side. *)
Definition handler (S : Type) : Type := ∀ r : request, S → response r * S.

(** Running a program: its result, the final remote state and the requests
    it issued, in order. *)
Fixpoint run {S A} (h : handler S) (p : prog A) (s : S) : A * S * list request :=
  match p with
  | Ret a => (a, s, [])
  | Call r k =>
      let '(x, s') := h r s in
      let '(a, s'', t) := run h (k x) s' in
      (a, s'', r :: t)
  end.

Definition result {S A} (h : handler S) (p : prog A) (s : S) : A := (run h p s).1.1.
Definition final {S A} (h : handler S) (p : prog A) (s : S) : S := (run h p s).1.2.
Definition issued {S A} (h : handler S) (p : prog A) (s : S) : list request := (run h p s).2.

(** ** The provider: [poc.go] *)

Definition REMOTE_POD_ANNOTATION_NAME : string := "virtual-kube-type".
Definition REMOTE_POD_ANNOTATION_VALUE : string := "poc".

(** [context.Context]: the provider receives it and never looks at it. *)
Record Context := { deadline : option Z; cancelled : bool }.

Module PocProvider.
Record t := mk {
  nodeName : string;
  operatingSystem : string;
  internalIP : string;
  daemonEndpointPort : Z
}.
End PocProvider.

Definition errNotImplemented : error := ErrPlain "not implemented by Poc provider".

(** The container literal of the translation loop: eight fields are set,
    the others keep their zero value. *)
Definition translate_container (c : Container.t) : Container.t :=
  {| Container.Name := Container.Name c;
     Container.Image := Container.Image c;
     Container.Command := Container.Command c;
     Container.Args := Container.Args c;
     Container.WorkingDir := Container.WorkingDir c;
     Container.Ports := Container.Ports c;
     Container.EnvFrom := [];
     Container.Env := Container.Env c;
     Container.Resources := Container.Resources c;
     Container.VolumeMounts := [];
     Container.VolumeDevices := [];
     Container.LivenessProbe := None;
     Container.ReadinessProbe := None;
     Container.Lifecycle := None;
     Container.TerminationMessagePath := "";
     Container.TerminationMessagePolicy := "";
     Container.ImagePullPolicy := "";
     Container.SecurityContext := None;
     Container.Stdin := false;
     Container.StdinOnce := false;
     Container.TTY := false |}.

(** [for _, c := range pod.Spec.Containers { containers = append(containers, cntr) }] *)
Fixpoint translate_containers (cs : list Container.t) (containers : list Container.t)
  : list Container.t :=
  match cs with
  | [] => containers
  | c :: rest => translate_containers rest (containers ++ [translate_container c])
  end.

(** The pod literal built when the remote pod does not exist. *)
Definition new_remote_pod (pod : Pod.t) : Pod.t :=
  let annotations : gmap string string :=
    <[REMOTE_POD_ANNOTATION_NAME := REMOTE_POD_ANNOTATION_VALUE]> ∅ in
  let containers := translate_containers (PodSpec.Containers (Pod.Spec pod)) [] in
  {| Pod.TypeMeta := {| TypeMeta.Kind := "Pod"; TypeMeta.APIVersion := "v1" |};
     Pod.ObjectMeta :=
       {| ObjectMeta.Name := Pod.Name pod;
          ObjectMeta.GenerateName := "";
          ObjectMeta.Namespace := Pod.Namespace pod;
          ObjectMeta.UID := "";
          ObjectMeta.ResourceVersion := "";
          ObjectMeta.DeletionGracePeriodSeconds := None;
          ObjectMeta.Labels := ∅;
          ObjectMeta.Annotations := annotations |};
     Pod.Spec :=
       {| PodSpec.Volumes := [];
          PodSpec.InitContainers := [];
          PodSpec.Containers := containers;
          PodSpec.RestartPolicy := PodSpec.RestartPolicy (Pod.Spec pod);
          PodSpec.TerminationGracePeriodSeconds := None;
          PodSpec.ActiveDeadlineSeconds := None;
          PodSpec.DNSPolicy := "";
          PodSpec.NodeSelector := ∅;
          PodSpec.ServiceAccountName := "";
          PodSpec.NodeName := "";
          PodSpec.HostNetwork := false |};
     Pod.Status := PodStatus.zero |}.

(** [TranslateToRemotePod]: the error of [Get] is assigned to the blank
    identifier, and the returned error is the constant [nil]. *)
Definition TranslateToRemotePod (pod : Pod.t) : prog (Pod.t * option error) :=
  '(rpod, _) ← call (PodsGet (Pod.Namespace pod) (Pod.Name pod) GetOptions.zero);
  if Nat.eqb (String.length (Pod.Name rpod)) 0
  then mret (new_remote_pod pod, None)
  else mret (rpod, None).

(** [UpdateToLocalPod]: overwrite the status and the spec of the host pod
    with the remote pod's.  The Go function writes through the pointer it
    was given and returns that pointer; here the updated pod is the result. *)
Definition UpdateToLocalPod (pod : Pod.t) : prog (Pod.t * option error) :=
  '(rpod, err) ← call (PodsGet (Pod.Namespace pod) (Pod.Name pod) GetOptions.zero);
  match err with
  | Some e => mret (pod, Some e)
  | None =>
      mret ({| Pod.TypeMeta := Pod.TypeMeta pod;
               Pod.ObjectMeta := Pod.ObjectMeta pod;
               Pod.Spec := Pod.Spec rpod;
               Pod.Status := Pod.Status rpod |}, None)
  end.

(** [CreatePod]: translate, then create on the remote side and return the
    error of the create call as it is. *)
Definition CreatePod (p : PocProvider.t) (ctx : Context) (pod : Pod.t) : prog (option error) :=
  '(pd, err) ← TranslateToRemotePod pod;
  match err with
  | Some e => mret (Some e)
  | None =>
      '(_, err) ← call (PodsCreate (Pod.Namespace pod) pd);
      mret err
  end.

(** What [UpdatePod] does with the outcome of the translation: the error
    of the update call is assigned and never read. *)
Definition UpdatePod_after (pod : Pod.t) (tr : Pod.t * option error) : prog (option error) :=
  let '(pd, err) := tr in
  match err with
  | Some e => mret (Some e)
  | None =>
      '(_, _) ← call (PodsUpdate (Pod.Namespace pod) pd);
      mret None
  end.

Definition UpdatePod (p : PocProvider.t) (ctx : Context) (pod : Pod.t) : prog (option error) :=
  TranslateToRemotePod pod ≫= UpdatePod_after pod.

(** [DeletePod]: the options of the remote call are the literal
    [&metav1.DeleteOptions{}]. *)
Definition DeletePod (p : PocProvider.t) (ctx : Context) (pod : Pod.t) : prog (option error) :=
  call (PodsDelete (Pod.Namespace pod) (Pod.Name pod) DeleteOptions.zero).

(** [fmt.Sprintf] of the format ["pod %s/%s is not found"]. *)
Definition not_found_message (namespace name : string) : string :=
  "pod " +:+ namespace +:+ "/" +:+ name +:+ " is not found".

(** [GetPod]: the returned pod pointer is nil exactly when the lookup
    reported an error. *)
Definition GetPod (p : PocProvider.t) (ctx : Context) (namespace name : string)
  : prog (option Pod.t * option error) :=
  '(pod, err) ← call (PodsGet namespace name GetOptions.zero);
  match err with
  | Some _ => mret (None, Some (errdefs.NotFoundf (not_found_message namespace name)))
  | None => mret (Some pod, None)
  end.

(** [GetPodStatus]: both returns give the address of a fresh status, so
    the result is kept as a value. *)
Definition GetPodStatus (p : PocProvider.t) (ctx : Context) (namespace name : string)
  : prog (PodStatus.t * option error) :=
  '(pod, err) ← call (PodsGet namespace name GetOptions.zero);
  match err with
  | Some _ =>
      mret ({| PodStatus.Phase := PodUnknown;
               PodStatus.Message := "";
               PodStatus.Reason := "";
               PodStatus.HostIP := "";
               PodStatus.PodIP := "";
               PodStatus.StartTime := None |}, None)
  | None => mret (Pod.Status pod, None)
  end.

(** [RunInContainer] *)
Definition RunInContainer (p : PocProvider.t) (ctx : Context)
    (namespace podName containerName : string) (cmd : list string) : option error :=
  Some errNotImplemented.

(** *** [GetPods] and the memory it returns pointers into

    [GetPods] returns [[]*corev1.Pod]: what the caller receives is a list
    of addresses, so the provider's memory is part of the model.  The
    statement [for _, pod := range list.Items] declares ONE variable [pod]
    for the whole loop (the semantics of every Go release this code base
    was written for; a per-iteration variable needs a [go 1.22] module
    line); each iteration assigns the next item to it, and [&pod] is the
    address of that variable.  [GetPods] therefore takes the memory [m] it
    starts from and returns the memory it leaves, next to its two results. *)

Abbreviation loc := positive.
Abbreviation heap := (gmap loc Pod.t).

Definition alloc (m : heap) : loc := fresh (dom m).

Fixpoint range_items (pod : loc) (items : list Pod.t) (result : list loc) (m : heap)
  : list loc * heap :=
  match items with
  | [] => (result, m)
  | item :: rest => range_items pod rest (result ++ [pod]) (<[pod := item]> m)
  end.

Definition owner_selector : string :=
  REMOTE_POD_ANNOTATION_NAME +:+ "=" +:+ REMOTE_POD_ANNOTATION_VALUE.

Definition GetPods (p : PocProvider.t) (ctx : Context) (m : heap)
  : prog (list loc * option error * heap) :=
  '(list, err) ← call (PodsList ""
      {| ListOptions.LabelSelector := "";
         ListOptions.FieldSelector := owner_selector;
         ListOptions.Limit := 0 |});
  match err with
  | Some e => mret ([], Some e, m)
  | None =>
      let pod := alloc m in
      let '(result, m') := range_items pod (PodList.Items list) [] (<[pod := Pod.zero]> m) in
      mret (result, None, m')
  end.

(** A caller reading the pods behind the returned pointers. *)
Definition deref (m : heap) (ps : list loc) : list (option Pod.t) := (λ l, m !! l) <$> ps.

(** A caller writing through one of the returned pointers. *)
Definition assign (m : heap) (l : loc) (v : Pod.t) : heap := <[l := v]> m.

(** *** [Capacity] and [resource.MustParse]

    Quantities are written as decimal digits followed by a suffix; what
    [MustParse] cannot read makes it panic, which is [None] here. *)

Definition digit (a : ascii) : option Z :=
  let n := Z.of_nat (nat_of_ascii a) in
  if ((48 <=? n)%Z && (n <=? 57)%Z)%bool then Some (n - 48) else None.

Fixpoint digits (s : string) (acc : option Z) : option Z * string :=
  match s with
  | String a rest =>
      match digit a with
      | Some d => digits rest (Some (10 * default 0 acc + d))
      | None => (acc, s)
      end
  | EmptyString => (acc, s)
  end.

(** The suffix: its multiplier in thousandths and its notation. *)
Definition suffix (s : string) : option (Z * Format.t) :=
  match s with
  | "" => Some (1000, Format.DecimalSI)
  | "m" => Some (1, Format.DecimalSI)
  | "k" => Some (1000 * 10 ^ 3, Format.DecimalSI)
  | "M" => Some (1000 * 10 ^ 6, Format.DecimalSI)
  | "G" => Some (1000 * 10 ^ 9, Format.DecimalSI)
  | "T" => Some (1000 * 10 ^ 12, Format.DecimalSI)
  | "P" => Some (1000 * 10 ^ 15, Format.DecimalSI)
  | "E" => Some (1000 * 10 ^ 18, Format.DecimalSI)
  | "Ki" => Some (1000 * 2 ^ 10, Format.BinarySI)
  | "Mi" => Some (1000 * 2 ^ 20, Format.BinarySI)
  | "Gi" => Some (1000 * 2 ^ 30, Format.BinarySI)
  | "Ti" => Some (1000 * 2 ^ 40, Format.BinarySI)
  | "Pi" => Some (1000 * 2 ^ 50, Format.BinarySI)
  | "Ei" => Some (1000 * 2 ^ 60, Format.BinarySI)
  | _ => None
  end.

Definition MustParse (s : string) : option Quantity.t :=
  match digits s None with
  | (Some n, rest) =>
      '(scale, fmt) ← suffix rest;
      Some {| Quantity.MilliValue := n * scale; Quantity.Format := fmt |}
  | (None, _) => None
  end.

(** The map literal of [Capacity]; [None] if one of the three [MustParse]
    calls panics. *)
Definition Capacity (p : PocProvider.t) (ctx : Context) : option ResourceList :=
  cpu ← MustParse "100";
  memory ← MustParse "50Gi";
  pods ← MustParse "100";
  Some (<["pods" := pods]> (<["memory" := memory]> (<["cpu" := cpu]> ∅))).

(** ** Remote sides to run the provider against *)

(** A remote side holding a table of pods, in the order they were
    created; [outage], when set, is the error every request fails with.
    The answers have the shape the typed client gives them: the pod
    concerned, or the zero pod with a status error.  [List] returns the pods
    of the namespace asked for (all of them for the empty namespace) and
    does not interpret the selectors. *)
Record remote := { pods : list Pod.t; outage : option error }.

Definition same_identity (ns name : string) (p : Pod.t) : bool :=
  bool_decide (Pod.Namespace p = ns) && bool_decide (Pod.Name p = name).

Definition not_found (name : string) : error :=
  ErrStatus StatusReasonNotFound ("pods " +:+ name +:+ " not found").

Definition already_exists (name : string) : error :=
  ErrStatus StatusReasonAlreadyExists ("pods " +:+ name +:+ " already exists").

Definition remote_get (r : remote) (ns name : string) : Pod.t * option error :=
  match outage r with
  | Some e => (Pod.zero, Some e)
  | None =>
      match List.find (same_identity ns name) (pods r) with
      | Some p => (p, None)
      | None => (Pod.zero, Some (not_found name))
      end
  end.

Definition remote_create (r : remote) (ns : string) (pod : Pod.t)
  : (Pod.t * option error) * remote :=
  match outage r with
  | Some e => ((Pod.zero, Some e), r)
  | None =>
      match List.find (same_identity ns (Pod.Name pod)) (pods r) with
      | Some _ => ((Pod.zero, Some (already_exists (Pod.Name pod))), r)
      | None => ((pod, None), {| pods := pods r ++ [pod]; outage := None |})
      end
  end.

Definition remote_update (r : remote) (ns : string) (pod : Pod.t)
  : (Pod.t * option error) * remote :=
  match outage r with
  | Some e => ((Pod.zero, Some e), r)
  | None =>
      match List.find (same_identity ns (Pod.Name pod)) (pods r) with
      | Some _ =>
          ((pod, None),
           {| pods := (λ q, if same_identity ns (Pod.Name pod) q then pod else q) <$> pods r;
              outage := None |})
      | None => ((Pod.zero, Some (not_found (Pod.Name pod))), r)
      end
  end.

Definition remote_delete (r : remote) (ns name : string) : option error * remote :=
  match outage r with
  | Some e => (Some e, r)
  | None =>
      match List.find (same_identity ns name) (pods r) with
      | Some _ =>
          (None, {| pods := List.filter (λ q, negb (same_identity ns name q)) (pods r);
                    outage := None |})
      | None => (Some (not_found name), r)
      end
  end.

Definition remote_list (r : remote) (ns : string) : PodList.t * option error :=
  match outage r with
  | Some e => (PodList.zero, Some e)
  | None =>
      ({| PodList.TypeMeta := TypeMeta.zero;
          PodList.ResourceVersion := "";
          PodList.Items :=
            List.filter (λ q, bool_decide (ns = "") || bool_decide (Pod.Namespace q = ns))
                        (pods r) |}, None)
  end.

Definition remote_handler : handler remote :=
  λ req r,
    match req as q return response q * remote with
    | PodsGet ns name _ => (remote_get r ns name, r)
    | PodsCreate ns pod => remote_create r ns pod
    | PodsUpdate ns pod => remote_update r ns pod
    | PodsDelete ns name _ => remote_delete r ns name
    | PodsList ns _ => (remote_list r ns, r)
    end.

(** What the remote side answers to the existence lookup of [ns]/[name]
    in state [s]. *)
Definition lookup {S} (h : handler S) (s : S) (ns name : string) : Pod.t * option error :=
  (h (PodsGet ns name GetOptions.zero) s).1.

(** ** The words of the specification *)

(** A container restricted to the whitelist: [c'] agrees with [c] on the
    eight whitelisted fields and has the zero value everywhere else. *)
Definition whitelisted (c c' : Container.t) : Prop :=
  Container.Name c' = Container.Name c ∧
  Container.Image c' = Container.Image c ∧
  Container.Command c' = Container.Command c ∧
  Container.Args c' = Container.Args c ∧
  Container.Resources c' = Container.Resources c ∧
  Container.Ports c' = Container.Ports c ∧
  Container.Env c' = Container.Env c ∧
  Container.WorkingDir c' = Container.WorkingDir c ∧
  Container.EnvFrom c' = [] ∧
  Container.VolumeMounts c' = [] ∧
  Container.VolumeDevices c' = [] ∧
  Container.LivenessProbe c' = None ∧
  Container.ReadinessProbe c' = None ∧
  Container.Lifecycle c' = None ∧
  Container.TerminationMessagePath c' = "" ∧
  Container.TerminationMessagePolicy c' = "" ∧
  Container.ImagePullPolicy c' = "" ∧
  Container.SecurityContext c' = None ∧
  Container.Stdin c' = false ∧
  Container.StdinOnce c' = false ∧
  Container.TTY c' = false.

(** The delete options a caller of [DeletePod] can supply: the method
    takes the pod only, so they are the grace period recorded on it. *)
Definition caller_delete_options (pod : Pod.t) : DeleteOptions.t :=
  {| DeleteOptions.GracePeriodSeconds :=
       ObjectMeta.DeletionGracePeriodSeconds (Pod.ObjectMeta pod);
     DeleteOptions.PropagationPolicy := None |}.

(** ** Sample data *)

Definition provider : PocProvider.t :=
  {| PocProvider.nodeName := "vk-poc";
     PocProvider.operatingSystem := "Linux";
     PocProvider.internalIP := "10.0.0.7";
     PocProvider.daemonEndpointPort := 10250 |}.

Definition background : Context := {| deadline := None; cancelled := false |}.

Definition nginx : Container.t :=
  {| Container.Name := "c";
     Container.Image := "nginx";
     Container.Command := ["nginx"];
     Container.Args := ["-g"; "daemon off;"];
     Container.WorkingDir := "/srv";
     Container.Ports := [ContainerPort.mk "http" 0 80 "TCP" ""];
     Container.EnvFrom := ["settings"];
     Container.Env := [EnvVar.mk "MODE" "prod" None];
     Container.Resources :=
       {| ResourceRequirements.Limits := ∅;
          ResourceRequirements.Requests := {["cpu" := Quantity.mk 500 Format.DecimalSI]} |};
     Container.VolumeMounts := [VolumeMount.mk "data" false "/data" ""];
     Container.VolumeDevices := [];
     Container.LivenessProbe := Some (Probe.mk ["true"] 5 10);
     Container.ReadinessProbe := None;
     Container.Lifecycle := Some (Lifecycle.mk None (Some ["nginx"; "-s"; "quit"]));
     Container.TerminationMessagePath := "/dev/termination-log";
     Container.TerminationMessagePolicy := "File";
     Container.ImagePullPolicy := "Always";
     Container.SecurityContext := Some (SecurityContext.mk (Some true) (Some 0) None);
     Container.Stdin := false;
     Container.StdinOnce := false;
     Container.TTY := true |}.

Definition sidecar : Container.t :=
  {| Container.Name := "log";
     Container.Image := "busybox";
     Container.Command := ["tail"];
     Container.Args := ["-f"; "/data/access.log"];
     Container.WorkingDir := "";
     Container.Ports := [];
     Container.EnvFrom := [];
     Container.Env := [];
     Container.Resources := ResourceRequirements.zero;
     Container.VolumeMounts := [VolumeMount.mk "data" true "/data" ""];
     Container.VolumeDevices := [];
     Container.LivenessProbe := None;
     Container.ReadinessProbe := None;
     Container.Lifecycle := None;
     Container.TerminationMessagePath := "";
     Container.TerminationMessagePolicy := "";
     Container.ImagePullPolicy := "IfNotPresent";
     Container.SecurityContext := None;
     Container.Stdin := false;
     Container.StdinOnce := false;
     Container.TTY := false |}.

(** The host pod [default/web], as the host hands it over while deleting
    it with a grace period of thirty seconds. *)
Definition web : Pod.t :=
  {| Pod.TypeMeta := {| TypeMeta.Kind := "Pod"; TypeMeta.APIVersion := "v1" |};
     Pod.ObjectMeta :=
       {| ObjectMeta.Name := "web";
          ObjectMeta.GenerateName := "";
          ObjectMeta.Namespace := "default";
          ObjectMeta.UID := "7c2f";
          ObjectMeta.ResourceVersion := "41";
          ObjectMeta.DeletionGracePeriodSeconds := Some 30;
          ObjectMeta.Labels := {["app" := "web"]};
          ObjectMeta.Annotations := ∅ |};
     Pod.Spec :=
       {| PodSpec.Volumes := [Volume.mk "data" "emptyDir"];
          PodSpec.InitContainers := [];
          PodSpec.Containers := [nginx; sidecar];
          PodSpec.RestartPolicy := RestartPolicyOnFailure;
          PodSpec.TerminationGracePeriodSeconds := Some 30;
          PodSpec.ActiveDeadlineSeconds := None;
          PodSpec.DNSPolicy := "ClusterFirst";
          PodSpec.NodeSelector := ∅;
          PodSpec.ServiceAccountName := "default";
          PodSpec.NodeName := "vk-poc";
          PodSpec.HostNetwork := false |};
     Pod.Status := PodStatus.zero |}.

(** Two pods as the remote side stores them. *)
Definition remote_web : Pod.t :=
  {| Pod.TypeMeta := {| TypeMeta.Kind := "Pod"; TypeMeta.APIVersion := "v1" |};
     Pod.ObjectMeta :=
       {| ObjectMeta.Name := "web";
          ObjectMeta.GenerateName := "";
          ObjectMeta.Namespace := "default";
          ObjectMeta.UID := "e910";
          ObjectMeta.ResourceVersion := "1207";
          ObjectMeta.DeletionGracePeriodSeconds := None;
          ObjectMeta.Labels := ∅;
          ObjectMeta.Annotations :=
            {[REMOTE_POD_ANNOTATION_NAME := REMOTE_POD_ANNOTATION_VALUE]} |};
     Pod.Spec := PodSpec.zero;
     Pod.Status :=
       {| PodStatus.Phase := PodRunning;
          PodStatus.Message := "";
          PodStatus.Reason := "";
          PodStatus.HostIP := "192.168.4.2";
          PodStatus.PodIP := "172.17.0.9";
          PodStatus.StartTime := Some 1561939200 |} |}.

Definition remote_db : Pod.t :=
  {| Pod.TypeMeta := {| TypeMeta.Kind := "Pod"; TypeMeta.APIVersion := "v1" |};
     Pod.ObjectMeta :=
       {| ObjectMeta.Name := "db";
          ObjectMeta.GenerateName := "";
          ObjectMeta.Namespace := "prod";
          ObjectMeta.UID := "03ab";
          ObjectMeta.ResourceVersion := "1311";
          ObjectMeta.DeletionGracePeriodSeconds := None;
          ObjectMeta.Labels := ∅;
          ObjectMeta.Annotations :=
            {[REMOTE_POD_ANNOTATION_NAME := REMOTE_POD_ANNOTATION_VALUE]} |};
     Pod.Spec := PodSpec.zero;
     Pod.Status :=
       {| PodStatus.Phase := PodPending;
          PodStatus.Message := "";
          PodStatus.Reason := "";
          PodStatus.HostIP := "";
          PodStatus.PodIP := "";
          PodStatus.StartTime := None |} |}.

Definition empty_remote : remote := {| pods := []; outage := None |}.
Definition busy_remote : remote := {| pods := [remote_web; remote_db]; outage := None |}.
Definition unreachable_remote : remote :=
  {| pods := [remote_web; remote_db];
     outage := Some (ErrTransport "dial tcp 10.1.0.1:443: i/o timeout") |}.

(** ** The node-level reports of the provider *)

(** [corev1.NodeConditionType] and [corev1.ConditionStatus] are string
    types. *)
Definition NodeReady : string := "Ready".
Definition NodeOutOfDisk : string := "OutOfDisk".
Definition NodeMemoryPressure : string := "MemoryPressure".
Definition NodeDiskPressure : string := "DiskPressure".
Definition NodeNetworkUnavailable : string := "NetworkUnavailable".
Definition ConditionTrue : string := "True".
Definition ConditionFalse : string := "False".
Definition ConditionUnknown : string := "Unknown".
Definition NodeInternalIP : string := "InternalIP".

Module NodeCondition.
Record t := mk {
  Type_ : string;
  Status : string;
  LastHeartbeatTime : Z;
  LastTransitionTime : Z;
  Reason : string;
  Message : string
}.
End NodeCondition.

Module NodeAddress.
Record t := mk { Type_ : string; Address : string }.
End NodeAddress.

Module NodeDaemonEndpoints.
Record t := mk { KubeletEndpointPort : Z }.
End NodeDaemonEndpoints.

(** [NodeConditions]: [heartbeat] and [transition] are what the two calls
    of [metav1.Now()] return, in that order. *)
Definition NodeConditions (p : PocProvider.t) (ctx : Context) (heartbeat transition : Z)
  : list NodeCondition.t :=
  let lastHeartbeatTime := heartbeat in
  let lastTransitionTime := transition in
  let lastTransitionReason := "Poc cluster is ready" in
  let lastTransitionMessage := "ok" in
  [ NodeCondition.mk NodeReady ConditionTrue
      lastHeartbeatTime lastTransitionTime lastTransitionReason lastTransitionMessage;
    NodeCondition.mk NodeOutOfDisk ConditionFalse
      lastHeartbeatTime lastTransitionTime lastTransitionReason lastTransitionMessage;
    NodeCondition.mk NodeMemoryPressure ConditionFalse
      lastHeartbeatTime lastTransitionTime lastTransitionReason lastTransitionMessage;
    NodeCondition.mk NodeDiskPressure ConditionFalse
      lastHeartbeatTime lastTransitionTime lastTransitionReason lastTransitionMessage;
    NodeCondition.mk NodeNetworkUnavailable ConditionFalse
      lastHeartbeatTime lastTransitionTime lastTransitionReason lastTransitionMessage;
    NodeCondition.mk "KubeletConfigOk" ConditionTrue
      lastHeartbeatTime lastTransitionTime lastTransitionReason lastTransitionMessage ].

Definition NodeAddresses (p : PocProvider.t) (ctx : Context) : list NodeAddress.t :=
  [ {| NodeAddress.Type_ := NodeInternalIP;
       NodeAddress.Address := PocProvider.internalIP p |} ].

Definition NodeDaemonEndpoints (p : PocProvider.t) (ctx : Context) : NodeDaemonEndpoints.t :=
  {| NodeDaemonEndpoints.KubeletEndpointPort := PocProvider.daemonEndpointPort p |}.

Definition OperatingSystem (p : PocProvider.t) : string := PocProvider.operatingSystem p.

(** [GetContainerLogs]: the content of the reader it returns, and its
    error. *)
Definition GetContainerLogs (p : PocProvider.t) (ctx : Context)
    (namespace podName containerName : string) : string * option error :=
  ("not support in POC Provider", None).

(** ** The helpers: [utils.go] *)

(** *** [InArray]

    Both arguments are [interface{}]: [value] stands for the values they
    can hold and [DeepEqual] for [reflect.DeepEqual] on them.  A haystack
    is a slice, an array, a value of another kind, or the nil interface, of
    which [reflect.TypeOf] returns the nil type, whose [Kind()] panics
    ([None]). *)
Inductive haystack (value : Type) :=
| Slice (hs : list value)
| Array (hs : list value)
| OtherKind (v : value)
| NilInterface.
Arguments Slice {value} hs.
Arguments Array {value} hs.
Arguments OtherKind {value} v.
Arguments NilInterface {value}.

(** [for i := 0; i < hs.Len(); i++], entered at index [i] with the
    elements from [i] on. *)
Fixpoint InArray_from {value} (DeepEqual : value → value → bool) (niddle : value)
    (hs : list value) (i : nat) : bool * nat :=
  match hs with
  | [] => (false, 0%nat)
  | x :: rest =>
      if DeepEqual niddle x then (true, i)
      else InArray_from DeepEqual niddle rest (S i)
  end.

Definition InArray {value} (DeepEqual : value → value → bool) (niddle : value)
    (h : haystack value) : option (bool * nat) :=
  match h with
  | Slice hs | Array hs => Some (InArray_from DeepEqual niddle hs 0)
  | OtherKind _ => Some (false, 0%nat)
  | NilInterface => None
  end.

(** *** The environment

    [os.Getenv] gives the empty string for a variable that is not set. *)
Definition Getenv (environ : gmap string string) (key : string) : string :=
  default "" (environ !! key).

Definition GetEnvWithDefault (environ : gmap string string) (envName def : string) : string :=
  let ev := Getenv environ envName in
  if decide (ev = "") then def else ev.

(** *** [CommaStrToSlice]

    [Split] is [strings.Split] for a separator of one byte: the pieces
    between the separators, so one piece more than there are separators.
    [strings.TrimSpace] is a parameter. *)
Fixpoint Split (s : string) (sep : ascii) : list string :=
  match s with
  | EmptyString => [""]
  | String c rest =>
      if decide (c = sep) then "" :: Split rest sep
      else match Split rest sep with
           | piece :: pieces => String c piece :: pieces
           | [] => [String c ""]
           end
  end.

(** [for _, s := range tmp { result = append(result, strings.TrimSpace(s)) }] *)
Fixpoint trim_all (TrimSpace : string → string) (tmp : list string) (result : list string)
  : list string :=
  match tmp with
  | [] => result
  | s :: rest => trim_all TrimSpace rest (result ++ [TrimSpace s])
  end.

Definition CommaStrToSlice (TrimSpace : string → string) (str : string) : list string :=
  let tmp := Split str "," in
  trim_all TrimSpace tmp [].

(** [strings.TrimSpace] on a string of ASCII bytes: the white space bytes
    are tab, line feed, vertical tab, form feed, carriage return and
    space. *)
Definition ascii_space (c : ascii) : bool :=
  let n := nat_of_ascii c in
  ((9 <=? n)%nat && (n <=? 13)%nat) || (n =? 32)%nat.

Fixpoint trim_left (s : string) : string :=
  match s with
  | String c rest => if ascii_space c then trim_left rest else s
  | EmptyString => ""
  end.

Fixpoint trim_right (s : string) : string :=
  match s with
  | String c rest =>
      match trim_right rest with
      | EmptyString => if ascii_space c then "" else String c ""
      | kept => String c kept
      end
  | EmptyString => ""
  end.

Definition ascii_TrimSpace (s : string) : string := trim_right (trim_left s).

(** *** Building the clients

    [log.Fatal] and [log.Fatalf] end the process: a function that reaches
    one of them does not return. *)
Inductive fatal :=
| FatalCreateClient (err : error)
| FatalInClusterConfig (err : error)
| FatalMissingKubeConfigPath
| FatalOutOfClusterConfig (err : error).

Inductive outcome (A : Type) : Type :=
| Returns (a : A)
| Exits (f : fatal)
| Panics.
Arguments Returns {A} a.
Arguments Exits {A} f.
Arguments Panics {A}.

#[export] Instance outcome_ret : MRet outcome := @Returns.
#[export] Instance outcome_bind : MBind outcome :=
  λ A B f o, match o with Returns a => f a | Exits x => Exits x | Panics => Panics end.

(** What the helpers and the constructor of the provider find around
    them: the environment variables, and the library functions
    [ioutil.ReadFile], [yaml.Unmarshal] (its error only, see [NewConfig]),
    [rest.InClusterConfig], [clientcmd.BuildConfigFromFlags] and
    [kubernetes.NewForConfig], each returning a value or an error. *)
Record platform (RestConfig Clientset : Type) := {
  environ : gmap string string;
  ReadFile : string → string + error;
  yaml_Unmarshal : string → option error;
  InClusterConfig : RestConfig + error;
  BuildConfigFromFlags : string → string → RestConfig + error;
  NewForConfig : RestConfig → Clientset + error
}.
Arguments environ {RestConfig Clientset} _.
Arguments ReadFile {RestConfig Clientset} _ _.
Arguments yaml_Unmarshal {RestConfig Clientset} _ _.
Arguments InClusterConfig {RestConfig Clientset} _.
Arguments BuildConfigFromFlags {RestConfig Clientset} _ _ _.
Arguments NewForConfig {RestConfig Clientset} _ _.

Section Clients.
Context {RestConfig Clientset : Type} (w : platform RestConfig Clientset).

Definition CreateClient (config : RestConfig) : outcome Clientset :=
  match NewForConfig w config with
  | inl clientset => Returns clientset
  | inr err => Exits (FatalCreateClient err)
  end.

Definition GetConfigInCluster : outcome RestConfig :=
  match InClusterConfig w with
  | inl config => Returns config
  | inr err => Exits (FatalInClusterConfig err)
  end.

Definition GetConfigOutOfCluster (kubeconfigPath : string) : outcome RestConfig :=
  let kubeconfigPath :=
    if Nat.eqb (String.length kubeconfigPath) 0
    then Getenv (environ w) "KUBE_CONFIG_PATH"
    else kubeconfigPath in
  if decide (kubeconfigPath = "") then Exits FatalMissingKubeConfigPath
  else
    match BuildConfigFromFlags w "" kubeconfigPath with
    | inl config => Returns config
    | inr err => Exits (FatalOutOfClusterConfig err)
    end.

(** [GetClient]: the case ["in"] falls through to the default. *)
Definition GetClient (configType path : string) : outcome Clientset :=
  config ← (if decide (configType = "out") then GetConfigOutOfCluster path
            else GetConfigInCluster);
  CreateClient config.

End Clients.

(** ** The configuration file and the constructor of the provider *)

Module Config.
Record t := mk { localKubeConfig : string; remoteKubeConfig : string }.
Definition zero : t := mk "" "".
End Config.

(** The two package-level clients. *)
Record globals (Clientset : Type) := { rc : option Clientset; lc : option Clientset }.
Arguments rc {Clientset} _.
Arguments lc {Clientset} _.

Section Constructor.
Context {RestConfig Clientset : Type} (w : platform RestConfig Clientset).

(** [NewConfig]: both fields of [Config] are unexported, so the decoder,
    which goes through reflection, cannot set them: after
    [yaml.Unmarshal(data, c)] the value behind [c] is still what [new(Config)]
    made, whatever the file says. *)
Definition NewConfig (cfg : string) : option Config.t * option error :=
  match ReadFile w cfg with
  | inr err => (None, Some err)
  | inl data =>
      let c := Config.zero in
      match yaml_Unmarshal w data with
      | Some err => (None, Some err)
      | None => (Some c, None)
      end
  end.

(** [NewPocProvider], without the resource manager, which the provider
    only stores.  Next to the two results it gives the package-level
    clients as it leaves them and the lookups it makes for its log, with
    the client each one goes to. *)
Definition NewPocProvider (g : globals Clientset) (config nodeName operatingSystem
    internalIP : string) (daemonEndpointPort : Z)
  : outcome ((option PocProvider.t * option error) * globals Clientset
             * list (Clientset * request)) :=
  let p := {| PocProvider.nodeName := nodeName;
              PocProvider.operatingSystem := operatingSystem;
              PocProvider.internalIP := internalIP;
              PocProvider.daemonEndpointPort := daemonEndpointPort |} in
  match NewConfig config with
  | (_, Some err) => Returns ((None, Some err), g, [])
  | (None, None) => Panics
  | (Some c, None) =>
      remote_client ← GetClient w "out" (Config.remoteKubeConfig c);
      local_client ← GetClient w "out" (Config.localKubeConfig c);
      Returns ((Some p, None),
               {| rc := Some remote_client; lc := Some local_client |},
               [(local_client, PodsGet "kube-system" "storage-provisioner" GetOptions.zero);
                (remote_client, PodsGet "default" "busybox" GetOptions.zero)])
  end.

End Constructor.

(** A machine to start the provider on: kubeconfig files are known by
    their path, a client by the path of the kubeconfig it was built from. *)
Definition laptop : platform string string :=
  {| environ := {["KUBE_CONFIG_PATH" := "/home/op/.kube/config"]};
     ReadFile := λ path,
       if decide (path = "/etc/vk/poc.yaml")
       then inl "LocalKubeConfig: /etc/vk/local
RemoteKubeConfig: /etc/vk/remote"
       else inr (ErrPlain ("open " +:+ path +:+ ": no such file or directory"));
     yaml_Unmarshal := λ data, None;
     InClusterConfig := inr (ErrPlain "unable to load in-cluster configuration");
     BuildConfigFromFlags := λ masterUrl path,
       if decide (path = "/home/op/.kube/config") then inl path
       else inr (ErrPlain ("stat " +:+ path +:+ ": no such file or directory"));
     NewForConfig := λ config, inl config |}.

(** Two containers that agree on the eight fields the translation copies. *)
Definition same_whitelist (c1 c2 : Container.t) : Prop :=
  Container.Name c1 = Container.Name c2 ∧
  Container.Image c1 = Container.Image c2 ∧
  Container.Command c1 = Container.Command c2 ∧
  Container.Args c1 = Container.Args c2 ∧
  Container.Resources c1 = Container.Resources c2 ∧
  Container.Ports c1 = Container.Ports c2 ∧
  Container.Env c1 = Container.Env c2 ∧
  Container.WorkingDir c1 = Container.WorkingDir c2.

(** The host pod [default/web] as another controller could hand it over:
    the same identity, restart policy and whitelisted container fields, and
    other volumes, labels, probes and security settings. *)
Definition web_bare : Pod.t :=
  {| Pod.TypeMeta := TypeMeta.zero;
     Pod.ObjectMeta :=
       {| ObjectMeta.Name := "web";
          ObjectMeta.GenerateName := "";
          ObjectMeta.Namespace := "default";
          ObjectMeta.UID := "";
          ObjectMeta.ResourceVersion := "";
          ObjectMeta.DeletionGracePeriodSeconds := None;
          ObjectMeta.Labels := ∅;
          ObjectMeta.Annotations := {["note" := "bare"]} |};
     Pod.Spec :=
       {| PodSpec.Volumes := [];
          PodSpec.InitContainers := [sidecar];
          PodSpec.Containers := [translate_container nginx; translate_container sidecar];
          PodSpec.RestartPolicy := RestartPolicyOnFailure;
          PodSpec.TerminationGracePeriodSeconds := None;
          PodSpec.ActiveDeadlineSeconds := Some 600;
          PodSpec.DNSPolicy := "";
          PodSpec.NodeSelector := ∅;
          PodSpec.ServiceAccountName := "";
          PodSpec.NodeName := "";
          PodSpec.HostNetwork := true |};
     Pod.Status := PodStatus.zero |}.

(** * Properties *)

(** ** Running programs *)

Section Running.
Context {S : Type} (h : handler S).

Lemma run_bind {A B} (p : prog A) (f : A → prog B) (s : S) :
  run h (p ≫= f) s =
    let '(a, s1, t1) := run h p s in
    let '(b, s2, t2) := run h (f a) s1 in
    (b, s2, (t1 ++ t2)%list).
Proof.
  revert s. induction p as [a | r k IH]; intros s.
  - cbn. destruct (run h (f a) s) as [[b s2] t2]. reflexivity.
  - change (run h (Call r k ≫= f) s)
      with (let '(x, s') := h r s in
            let '(b, s'', t) := run h (k x ≫= f) s' in (b, s'', r :: t)).
    cbn [run]. destruct (h r s) as [x s'].
    rewrite IH. destruct (run h (k x) s') as [[a s1] t1].
    destruct (run h (f a) s1) as [[b s2] t2]. reflexivity.
Qed.

(** [TranslateToRemotePod] is one lookup followed by the test on the name
    of what came back. *)
Lemma run_TranslateToRemotePod (pod : Pod.t) (s : S) :
  run h (TranslateToRemotePod pod) s =
    let ans := h (PodsGet (Pod.Namespace pod) (Pod.Name pod) GetOptions.zero) s in
    (if Nat.eqb (String.length (Pod.Name ans.1.1)) 0
     then (new_remote_pod pod, None) else (ans.1.1, None),
     ans.2,
     [PodsGet (Pod.Namespace pod) (Pod.Name pod) GetOptions.zero]).
Proof.
  unfold TranslateToRemotePod. rewrite run_bind. unfold call. cbn [run].
  destruct (h _ s) as [[rpod err] s']. cbn.
  destruct (Nat.eqb _ 0); reflexivity.
Qed.

End Running.

(** A pod that is not in the table is looked up as the zero pod, whose
    name is empty, with a not-found error. *)
Lemma remote_get_absent (r : remote) (ns name : string) :
  outage r = None →
  List.find (same_identity ns name) (pods r) = None →
  lookup remote_handler r ns name = (Pod.zero, Some (not_found name)).
Proof. intros Hup Hfind. unfold lookup. cbn. unfold remote_get. by rewrite Hup, Hfind. Qed.

(** A pod of the table is looked up as it is stored. *)
Lemma remote_get_present (r : remote) (ns name : string) (p : Pod.t) :
  outage r = None →
  List.find (same_identity ns name) (pods r) = Some p →
  lookup remote_handler r ns name = (p, None) ∧ Pod.Namespace p = ns ∧ Pod.Name p = name.
Proof.
  intros Hup Hfind. unfold lookup. cbn. unfold remote_get. rewrite Hup, Hfind.
  apply List.find_some in Hfind as [_ Hid]. unfold same_identity in Hid.
  apply andb_prop in Hid as [Hns Hn].
  apply bool_decide_eq_true in Hns, Hn. done.
Qed.

(** ** The translation loop *)

Lemma translate_containers_app (cs acc : list Container.t) :
  translate_containers cs acc = acc ++ (translate_container <$> cs).
Proof.
  revert acc. induction cs as [| c cs IH]; intros acc; cbn.
  - by rewrite app_nil_r.
  - by rewrite IH, <- app_assoc.
Qed.

Lemma translate_container_whitelisted (c : Container.t) :
  whitelisted c (translate_container c).
Proof. repeat split. Qed.

Lemma translate_containers_whitelisted (cs : list Container.t) :
  Forall2 whitelisted cs (translate_containers cs []).
Proof.
  rewrite translate_containers_app. cbn.
  induction cs as [| c cs IH]; constructor; auto using translate_container_whitelisted.
Qed.

(** ** Translation to the remote pod *)

(** C1: when the existence lookup for the host pod's namespace and name
    finds no remote pod (what comes back has an empty name), the translation
    returns a new pod carrying the annotation virtual-kube-type=poc, with no
    volume, with the host pod's namespace, name and restart policy, and whose
    containers are the host pod's containers, in order, each restricted to
    name, image, command, args, resources, ports, env and workingDir, every
    other container field being zero. *)
Theorem TranslateToRemotePod_absent {S} (h : handler S) (s : S) (pod : Pod.t) :
  String.length (Pod.Name (lookup h s (Pod.Namespace pod) (Pod.Name pod)).1) = 0%nat →
  ∃ rpod : Pod.t,
    result h (TranslateToRemotePod pod) s = (rpod, None) ∧
    rpod = new_remote_pod pod ∧
    ObjectMeta.Annotations (Pod.ObjectMeta rpod) !! "virtual-kube-type" = Some "poc" ∧
    PodSpec.Volumes (Pod.Spec rpod) = [] ∧
    Pod.Namespace rpod = Pod.Namespace pod ∧
    Pod.Name rpod = Pod.Name pod ∧
    PodSpec.RestartPolicy (Pod.Spec rpod) = PodSpec.RestartPolicy (Pod.Spec pod) ∧
    Forall2 whitelisted (PodSpec.Containers (Pod.Spec pod)) (PodSpec.Containers (Pod.Spec rpod)).
Proof.
  intros Hname. exists (new_remote_pod pod).
  unfold result, lookup in *. rewrite run_TranslateToRemotePod. cbn [fst snd].
  rewrite Hname. cbn [Nat.eqb].
  repeat split; try reflexivity.
  cbn. apply translate_containers_whitelisted.
Qed.

Lemma TranslateToRemotePod_absent_witness :
  ∃ rpod : Pod.t,
    result remote_handler (TranslateToRemotePod web) empty_remote = (rpod, None) ∧
    rpod = new_remote_pod web ∧
    ObjectMeta.Annotations (Pod.ObjectMeta rpod) !! "virtual-kube-type" = Some "poc" ∧
    PodSpec.Volumes (Pod.Spec rpod) = [] ∧
    Pod.Namespace rpod = Pod.Namespace web ∧
    Pod.Name rpod = Pod.Name web ∧
    PodSpec.RestartPolicy (Pod.Spec rpod) = PodSpec.RestartPolicy (Pod.Spec web) ∧
    Forall2 whitelisted (PodSpec.Containers (Pod.Spec web)) (PodSpec.Containers (Pod.Spec rpod)).
Proof. apply (TranslateToRemotePod_absent remote_handler empty_remote web). reflexivity. Defined.

(** C2: when the existence lookup for the host pod's namespace and name
    returns a pod with a non-empty name, the translation returns that pod as
    fetched, with a nil error, and so does the translation of any host pod
    with the same namespace and name: translating the same identity again
    gives the same remote pod. *)
Theorem TranslateToRemotePod_existing {S} (h : handler S) (s : S) (pod pod' : Pod.t) :
  String.length (Pod.Name (lookup h s (Pod.Namespace pod) (Pod.Name pod)).1) ≠ 0%nat →
  Pod.Namespace pod' = Pod.Namespace pod →
  Pod.Name pod' = Pod.Name pod →
  result h (TranslateToRemotePod pod) s
    = ((lookup h s (Pod.Namespace pod) (Pod.Name pod)).1, None) ∧
  result h (TranslateToRemotePod pod') s = result h (TranslateToRemotePod pod) s.
Proof.
  intros Hname Hns Hn.
  unfold result, lookup in *. rewrite !run_TranslateToRemotePod. cbn [fst snd].
  rewrite Hns, Hn.
  apply Nat.eqb_neq in Hname. rewrite Hname. split; reflexivity.
Qed.

Lemma TranslateToRemotePod_existing_witness :
  result remote_handler (TranslateToRemotePod web) busy_remote = (remote_web, None) ∧
  result remote_handler (TranslateToRemotePod remote_web) busy_remote
    = result remote_handler (TranslateToRemotePod web) busy_remote.
Proof.
  apply (TranslateToRemotePod_existing remote_handler busy_remote web remote_web);
    [vm_compute; discriminate | reflexivity | reflexivity].
Defined.

(** C3, as the specification has it, fails: the lookup of a pod the remote
    side does not have reports an error, and the translation, which then
    builds the new pod, reports none. *)
Lemma TranslateToRemotePod_propagates_counterexample :
  ¬ (∀ (S : Type) (h : handler S) (s : S) (pod : Pod.t) (e : error),
       (lookup h s (Pod.Namespace pod) (Pod.Name pod)).2 = Some e →
       (result h (TranslateToRemotePod pod) s).2 = Some e).
Proof.
  intros H.
  specialize (H remote remote_handler empty_remote web (not_found "web") eq_refl).
  vm_compute in H. discriminate H.
Qed.

(** C3, amended: the translation never fails; whatever the existence lookup
    returns, an error included, the translation returns a nil error. *)
Theorem TranslateToRemotePod_never_fails {S} (h : handler S) (s : S) (pod : Pod.t) :
  (result h (TranslateToRemotePod pod) s).2 = None.
Proof.
  unfold result. rewrite run_TranslateToRemotePod. cbn [fst snd].
  destruct (Nat.eqb _ 0); reflexivity.
Qed.

(** Two CreatePod calls for default/web in a row: the second translation
    finds the pod the first call created and reuses it, and the remote side
    still holds one pod. *)
Example CreatePod_twice :
  let once := final remote_handler (CreatePod provider background web) empty_remote in
  pods once = [new_remote_pod web] ∧
  result remote_handler (TranslateToRemotePod web) once = (new_remote_pod web, None) ∧
  run remote_handler (CreatePod provider background web) once
    = (Some (already_exists "web"), once,
       [PodsGet "default" "web" GetOptions.zero;
        PodsCreate "default" (new_remote_pod web)]).
Proof. repeat split. Qed.

(** ** Lookups by the provider *)

Section Lookups.
Context {S : Type} (h : handler S).
Variables (p : PocProvider.t) (ctx : Context).

(** [GetPod] and [GetPodStatus] are one lookup each, followed by a test of
    the error alone. *)
Lemma run_GetPod (namespace name : string) (s : S) :
  run h (GetPod p ctx namespace name) s =
    let ans := h (PodsGet namespace name GetOptions.zero) s in
    (match ans.1.2 with
     | Some _ => (None, Some (errdefs.NotFoundf (not_found_message namespace name)))
     | None => (Some ans.1.1, None)
     end, ans.2, [PodsGet namespace name GetOptions.zero]).
Proof.
  unfold GetPod. rewrite run_bind. unfold call. cbn [run].
  destruct (h _ s) as [[pod [e |]] s']; reflexivity.
Qed.

Lemma run_GetPodStatus (namespace name : string) (s : S) :
  run h (GetPodStatus p ctx namespace name) s =
    let ans := h (PodsGet namespace name GetOptions.zero) s in
    (match ans.1.2 with
     | Some _ => ({| PodStatus.Phase := PodUnknown;
                     PodStatus.Message := "";
                     PodStatus.Reason := "";
                     PodStatus.HostIP := "";
                     PodStatus.PodIP := "";
                     PodStatus.StartTime := None |}, None)
     | None => (Pod.Status ans.1.1, None)
     end, ans.2, [PodsGet namespace name GetOptions.zero]).
Proof.
  unfold GetPodStatus. rewrite run_bind. unfold call. cbn [run].
  destruct (h _ s) as [[pod [e |]] s']; reflexivity.
Qed.

(** A lookup that succeeds is passed on as it is. *)
Lemma GetPod_found (namespace name : string) (s : S) :
  (lookup h s namespace name).2 = None →
  result h (GetPod p ctx namespace name) s = (Some (lookup h s namespace name).1, None) ∧
  result h (GetPodStatus p ctx namespace name) s
    = (Pod.Status (lookup h s namespace name).1, None).
Proof.
  unfold result, lookup. rewrite run_GetPod, run_GetPodStatus. cbn [fst snd].
  intros ->. split; reflexivity.
Qed.

End Lookups.

Lemma IsNotFound_iff (e : error) :
  errdefs.IsNotFound e = true ↔ ∃ msg, e = errdefs.NotFoundf msg.
Proof.
  split.
  - destruct e; cbn; try discriminate. eauto.
  - intros [msg ->]. reflexivity.
Qed.

(** C4: when the lookup fails because the pod does not exist, GetPod
    returns no pod and an error of the NotFound kind built from the
    namespace and the name, not the error of the lookup.  The kind is told
    apart by [errdefs.IsNotFound], which rejects the error of the lookup, and
    GetPod returns no failure of another kind to confuse it with. *)
Theorem GetPod_not_found {S} (h : handler S) (s : S) (p : PocProvider.t) (ctx : Context)
    (namespace name msg : string) :
  (lookup h s namespace name).2 = Some (ErrStatus StatusReasonNotFound msg) →
  ∃ e : error,
    result h (GetPod p ctx namespace name) s = (None, Some e) ∧
    e = errdefs.NotFoundf (not_found_message namespace name) ∧
    errdefs.IsNotFound e = true ∧
    e ≠ ErrStatus StatusReasonNotFound msg ∧
    errdefs.IsNotFound (ErrStatus StatusReasonNotFound msg) = false ∧
    (∀ S' (h' : handler S') (s' : S') (ns' name' : string) (e' : error),
        (result h' (GetPod p ctx ns' name') s').2 = Some e' →
        errdefs.IsNotFound e' = true).
Proof.
  intros Hlookup. eexists. unfold result, lookup in *.
  rewrite run_GetPod. cbn [fst snd]. rewrite Hlookup.
  repeat split; try discriminate.
  intros S' h' s' ns' name' e'. rewrite run_GetPod. cbn [fst snd].
  destruct (h' (PodsGet ns' name' GetOptions.zero) s') as [[pod [e'' |]] s''];
    cbn; intros [= <-]. reflexivity.
Qed.

Lemma GetPod_not_found_witness :
  ∃ e : error,
    result remote_handler (GetPod provider background "default" "missing") busy_remote
      = (None, Some e) ∧
    e = errdefs.NotFoundf (not_found_message "default" "missing") ∧
    errdefs.IsNotFound e = true ∧
    e ≠ not_found "missing" ∧
    errdefs.IsNotFound (not_found "missing") = false ∧
    (∀ S' (h' : handler S') (s' : S') (ns' name' : string) (e' : error),
        (result h' (GetPod provider background ns' name') s').2 = Some e' →
        errdefs.IsNotFound e' = true).
Proof.
  apply (GetPod_not_found remote_handler busy_remote provider background
           "default" "missing" "pods missing not found").
  reflexivity.
Defined.

(** C5: when the lookup fails because the pod does not exist, GetPodStatus
    returns a status whose phase is Unknown together with a nil error, while
    GetPod, on the same lookup, returns an error. *)
Theorem GetPodStatus_not_found {S} (h : handler S) (s : S) (p : PocProvider.t)
    (ctx : Context) (namespace name msg : string) :
  (lookup h s namespace name).2 = Some (ErrStatus StatusReasonNotFound msg) →
  ∃ status : PodStatus.t,
    result h (GetPodStatus p ctx namespace name) s = (status, None) ∧
    PodStatus.Phase status = PodUnknown ∧
    (result h (GetPod p ctx namespace name) s).2 ≠ None.
Proof.
  intros Hlookup. eexists. unfold result, lookup in *.
  rewrite run_GetPodStatus, run_GetPod. cbn [fst snd]. rewrite Hlookup.
  repeat split. discriminate.
Qed.

Lemma GetPodStatus_not_found_witness :
  ∃ status : PodStatus.t,
    result remote_handler (GetPodStatus provider background "default" "missing") busy_remote
      = (status, None) ∧
    PodStatus.Phase status = PodUnknown ∧
    (result remote_handler (GetPod provider background "default" "missing") busy_remote).2
      ≠ None.
Proof.
  apply (GetPodStatus_not_found remote_handler busy_remote provider background
           "default" "missing" "pods missing not found").
  reflexivity.
Defined.

(** C10: GetPod and GetPodStatus look only at whether the lookup reported
    an error.  Whatever the error is (a missing pod, a network or an
    authorization failure), GetPod returns the same NotFound error and
    GetPodStatus the same successful status of phase Unknown, so two lookups
    failing for different reasons give the caller identical results. *)
Theorem lookup_failures_conflated {S} (h : handler S) (s1 s2 : S) (p : PocProvider.t)
    (ctx : Context) (namespace name : string) (e1 e2 : error) :
  (lookup h s1 namespace name).2 = Some e1 →
  (lookup h s2 namespace name).2 = Some e2 →
  result h (GetPod p ctx namespace name) s1
    = (None, Some (errdefs.NotFoundf (not_found_message namespace name))) ∧
  result h (GetPod p ctx namespace name) s2 = result h (GetPod p ctx namespace name) s1 ∧
  (result h (GetPodStatus p ctx namespace name) s1).2 = None ∧
  PodStatus.Phase (result h (GetPodStatus p ctx namespace name) s1).1 = PodUnknown ∧
  result h (GetPodStatus p ctx namespace name) s2
    = result h (GetPodStatus p ctx namespace name) s1.
Proof.
  intros H1 H2. unfold result, lookup in *.
  rewrite !run_GetPod, !run_GetPodStatus. cbn [fst snd]. rewrite H1, H2.
  repeat split.
Qed.

Lemma lookup_failures_conflated_witness :
  result remote_handler (GetPod provider background "default" "missing") unreachable_remote
    = (None, Some (errdefs.NotFoundf (not_found_message "default" "missing"))) ∧
  result remote_handler (GetPod provider background "default" "missing") busy_remote
    = result remote_handler (GetPod provider background "default" "missing") unreachable_remote ∧
  (result remote_handler (GetPodStatus provider background "default" "missing")
     unreachable_remote).2 = None ∧
  PodStatus.Phase
    (result remote_handler (GetPodStatus provider background "default" "missing")
       unreachable_remote).1 = PodUnknown ∧
  result remote_handler (GetPodStatus provider background "default" "missing") busy_remote
    = result remote_handler (GetPodStatus provider background "default" "missing")
        unreachable_remote.
Proof.
  apply (lookup_failures_conflated remote_handler unreachable_remote busy_remote
           provider background "default" "missing"
           (ErrTransport "dial tcp 10.1.0.1:443: i/o timeout")
           (not_found "missing"));
    reflexivity.
Defined.

(** ** Updating and deleting *)

(** C6: UpdatePod is the translation followed by [UpdatePod_after].  A
    translation error is returned as it is, with no remote call; after a
    successful translation the update is sent for the translated pod and
    the result is nil whatever the remote side answers, so UpdatePod as a
    whole returns nil. *)
Theorem UpdatePod_errors {S} (h : handler S) (s : S) (p : PocProvider.t) (ctx : Context)
    (pod pd : Pod.t) (e : error) :
  UpdatePod p ctx pod = TranslateToRemotePod pod ≫= UpdatePod_after pod ∧
  run h (UpdatePod_after pod (pd, Some e)) s = (Some e, s, []) ∧
  result h (UpdatePod_after pod (pd, None)) s = None ∧
  issued h (UpdatePod_after pod (pd, None)) s = [PodsUpdate (Pod.Namespace pod) pd] ∧
  result h (UpdatePod p ctx pod) s = None ∧
  issued h (UpdatePod p ctx pod) s
    = [PodsGet (Pod.Namespace pod) (Pod.Name pod) GetOptions.zero;
       PodsUpdate (Pod.Namespace pod) (result h (TranslateToRemotePod pod) s).1].
Proof.
  assert (Hafter : ∀ (s0 : S) (pd0 : Pod.t),
             (run h (UpdatePod_after pod (pd0, None)) s0).1.1 = None ∧
             (run h (UpdatePod_after pod (pd0, None)) s0).2
               = [PodsUpdate (Pod.Namespace pod) pd0]).
  { intros s0 pd0. unfold UpdatePod_after. rewrite run_bind. unfold call. cbn [run].
    destruct (h _ s0) as [[upd err] s']. split; reflexivity. }
  split; [reflexivity |]. split; [reflexivity |].
  split; [apply Hafter |]. split; [apply Hafter |].
  unfold result, issued, UpdatePod. rewrite run_bind, run_TranslateToRemotePod.
  cbn [fst snd].
  set (ans := h (PodsGet (Pod.Namespace pod) (Pod.Name pod) GetOptions.zero) s).
  destruct (Nat.eqb _ 0).
  - destruct (Hafter ans.2 (new_remote_pod pod)) as [Hr Hi].
    destruct (run h _ ans.2) as [[b s2] t2]. cbn in *. subst. split; reflexivity.
  - destruct (Hafter ans.2 ans.1.1) as [Hr Hi].
    destruct (run h _ ans.2) as [[b s2] t2]. cbn in *. subst. split; reflexivity.
Qed.

(** An update sent to an unreachable remote side fails there, and
    UpdatePod still reports success. *)
Example UpdatePod_unreachable :
  (remote_handler (PodsUpdate "default" (new_remote_pod web)) unreachable_remote).1.2
    = Some (ErrTransport "dial tcp 10.1.0.1:443: i/o timeout") ∧
  run remote_handler (UpdatePod provider background web) unreachable_remote
    = (None, unreachable_remote,
       [PodsGet "default" "web" GetOptions.zero;
        PodsUpdate "default" (new_remote_pod web)]).
Proof. split; reflexivity. Qed.

(** C8, as the specification has it, fails: the options of the remote
    delete are not the ones the caller supplied. *)
Lemma DeletePod_options_counterexample :
  ¬ (∀ (S : Type) (h : handler S) (s : S) (p : PocProvider.t) (ctx : Context) (pod : Pod.t),
       issued h (DeletePod p ctx pod) s
         = [PodsDelete (Pod.Namespace pod) (Pod.Name pod) (caller_delete_options pod)]).
Proof.
  intros H. specialize (H remote remote_handler busy_remote provider background web).
  vm_compute in H. discriminate H.
Qed.

(** C8, amended: DeletePod issues exactly one remote delete, for the pod's
    namespace and name and with empty delete options, and returns the error
    of that call as it is; the method has no delete-options parameter, and
    two calls for the same namespace and name are the same program, whatever
    else the context and the pod carry. *)
Theorem DeletePod_zero_options {S} (h : handler S) (s : S) (p : PocProvider.t)
    (ctx : Context) (pod : Pod.t) :
  issued h (DeletePod p ctx pod) s
    = [PodsDelete (Pod.Namespace pod) (Pod.Name pod) DeleteOptions.zero] ∧
  result h (DeletePod p ctx pod) s
    = (h (PodsDelete (Pod.Namespace pod) (Pod.Name pod) DeleteOptions.zero) s).1 ∧
  (∀ (ctx' : Context) (pod' : Pod.t),
      Pod.Namespace pod' = Pod.Namespace pod →
      Pod.Name pod' = Pod.Name pod →
      DeletePod p ctx' pod' = DeletePod p ctx pod).
Proof.
  unfold issued, result, DeletePod, call. cbn [run].
  destruct (h _ s) as [err s']. repeat split.
  intros ctx' pod' -> ->. reflexivity.
Qed.

(** ** Listing *)

Lemma range_items_spec (pod : loc) (items : list Pod.t) (result : list loc) (m : heap) :
  range_items pod items result m =
    (result ++ replicate (length items) pod,
     match last items with Some item => <[pod := item]> m | None => m end).
Proof.
  revert result m. induction items as [| item rest IH]; intros result m; cbn [range_items].
  - cbn. by rewrite app_nil_r.
  - rewrite IH. cbn [length replicate]. rewrite <- app_assoc. cbn [app]. f_equal.
    rewrite last_cons. destruct (last rest); [| reflexivity].
    apply insert_insert_eq.
Qed.

(** The request of GetPods: all namespaces, the field selector made of
    the ownership marker. *)
Lemma GetPods_request {S} (h : handler S) (s : S) (p : PocProvider.t) (ctx : Context)
    (m : heap) :
  issued h (GetPods p ctx m) s
    = [PodsList "" {| ListOptions.LabelSelector := "";
                      ListOptions.FieldSelector := "virtual-kube-type=poc";
                      ListOptions.Limit := 0 |}].
Proof.
  unfold issued, GetPods. rewrite run_bind. unfold call. cbn [run].
  destruct (h _ s) as [[list [e |]] s']; cbn; [reflexivity |].
  destruct (range_items _ _ _ _). reflexivity.
Qed.

(** Every pointer GetPods returns is the address of the loop variable,
    which holds the last item of the list. *)
Lemma GetPods_aliased {S} (h : handler S) (s : S) (p : PocProvider.t) (ctx : Context)
    (m : heap) (list : PodList.t) (item : Pod.t) :
  (h (PodsList "" {| ListOptions.LabelSelector := "";
                     ListOptions.FieldSelector := owner_selector;
                     ListOptions.Limit := 0 |}) s).1 = (list, None) →
  last (PodList.Items list) = Some item →
  ∃ m' : heap,
    result h (GetPods p ctx m) s
      = (replicate (length (PodList.Items list)) (alloc m), None, m') ∧
    deref m' (replicate (length (PodList.Items list)) (alloc m))
      = replicate (length (PodList.Items list)) (Some item).
Proof.
  intros Hlist Hlast. unfold result, GetPods. rewrite run_bind. unfold call. cbn [run].
  destruct (h _ s) as [[list' err] s']. cbn in Hlist. injection Hlist as -> ->.
  cbn. rewrite range_items_spec, Hlast. cbn. eexists; split; [reflexivity |].
  unfold deref. rewrite fmap_replicate. by rewrite lookup_insert_eq.
Qed.

(** C7 at a list of two pods: GetPods answers with the same address twice,
    behind which both reads find the second pod; the first pod of the list is
    not among the results, and a write through the first pointer shows
    through the second. *)
Theorem GetPods_two_pods :
  ∃ (l : loc) (m : heap),
    (remote_handler (PodsList "" {| ListOptions.LabelSelector := "";
                                    ListOptions.FieldSelector := owner_selector;
                                    ListOptions.Limit := 0 |}) busy_remote).1
      = ({| PodList.TypeMeta := TypeMeta.zero;
            PodList.ResourceVersion := "";
            PodList.Items := [remote_web; remote_db] |}, None) ∧
    result remote_handler (GetPods provider background ∅) busy_remote = ([l; l], None, m) ∧
    deref m [l; l] = [Some remote_db; Some remote_db] ∧
    deref m [l; l] ≠ [Some remote_web; Some remote_db] ∧
    deref (assign m l web) [l; l] = [Some web; Some web].
Proof.
  eexists _, _. split; [reflexivity |]. split; [vm_compute; reflexivity |].
  split; [vm_compute; reflexivity |]. split; [| vm_compute; reflexivity].
  vm_compute. discriminate.
Qed.

(** ** Capacity *)

(** C9: Capacity returns, for every provider and every call, the resource
    list with exactly the three entries cpu = 100, memory = 50Gi and
    pods = 100; it takes no part of the remote side's state. *)
Theorem Capacity_fixed (p : PocProvider.t) (ctx : Context) :
  Capacity p ctx =
    Some (list_to_map
            [("cpu", {| Quantity.MilliValue := 100 * 1000;
                        Quantity.Format := Format.DecimalSI |});
             ("memory", {| Quantity.MilliValue := 50 * 2 ^ 30 * 1000;
                           Quantity.Format := Format.BinarySI |});
             ("pods", {| Quantity.MilliValue := 100 * 1000;
                         Quantity.Format := Format.DecimalSI |})]) ∧
  (∀ caps : ResourceList, Capacity p ctx = Some caps →
     dom caps = {["cpu"; "memory"; "pods"]} ∧
     Quantity.Value <$> caps !! "cpu" = Some 100 ∧
     Quantity.Value <$> caps !! "memory" = Some (50 * 2 ^ 30) ∧
     Quantity.Value <$> caps !! "pods" = Some 100).
Proof.
  split; [vm_compute; reflexivity |].
  intros caps [= <-]. repeat split; vm_compute; reflexivity.
Qed.

(** * Further properties of the provider *)

(** ** What the translation depends on *)

Lemma translate_container_same_whitelist (c1 c2 : Container.t) :
  same_whitelist c1 c2 → translate_container c1 = translate_container c2.
Proof.
  intros (Hname & Himage & Hcmd & Hargs & Hres & Hports & Henv & Hdir).
  unfold translate_container.
  by rewrite Hname, Himage, Hcmd, Hargs, Hres, Hports, Henv, Hdir.
Qed.

Lemma translate_containers_same_whitelist (cs1 cs2 : list Container.t) :
  Forall2 same_whitelist cs1 cs2 →
  translate_containers cs1 [] = translate_containers cs2 [].
Proof.
  intros Hcs. rewrite !translate_containers_app. cbn.
  induction Hcs as [| c1 c2 cs1 cs2 Hc _ IH]; cbn; [reflexivity |].
  by rewrite IH, (translate_container_same_whitelist c1 c2 Hc).
Qed.

Lemma new_remote_pod_same_whitelist (pod1 pod2 : Pod.t) :
  Pod.Namespace pod1 = Pod.Namespace pod2 →
  Pod.Name pod1 = Pod.Name pod2 →
  PodSpec.RestartPolicy (Pod.Spec pod1) = PodSpec.RestartPolicy (Pod.Spec pod2) →
  Forall2 same_whitelist (PodSpec.Containers (Pod.Spec pod1))
                         (PodSpec.Containers (Pod.Spec pod2)) →
  new_remote_pod pod1 = new_remote_pod pod2.
Proof.
  intros Hns Hname Hrestart Hcs. unfold new_remote_pod.
  by rewrite Hns, Hname, Hrestart, (translate_containers_same_whitelist _ _ Hcs).
Qed.

(** The translation reads nothing of the host pod but its namespace, its
    name, its restart policy and the eight whitelisted fields of its
    containers: two host pods that agree on these give the same run (result,
    remote state and requests) against every remote side, whatever else they
    carry. *)
Theorem TranslateToRemotePod_reads_whitelist_only {S} (h : handler S) (s : S)
    (pod1 pod2 : Pod.t) :
  Pod.Namespace pod1 = Pod.Namespace pod2 →
  Pod.Name pod1 = Pod.Name pod2 →
  PodSpec.RestartPolicy (Pod.Spec pod1) = PodSpec.RestartPolicy (Pod.Spec pod2) →
  Forall2 same_whitelist (PodSpec.Containers (Pod.Spec pod1))
                         (PodSpec.Containers (Pod.Spec pod2)) →
  run h (TranslateToRemotePod pod1) s = run h (TranslateToRemotePod pod2) s.
Proof.
  intros Hns Hname Hrestart Hcs. rewrite !run_TranslateToRemotePod.
  by rewrite Hns, Hname, (new_remote_pod_same_whitelist pod1 pod2).
Qed.

Lemma TranslateToRemotePod_reads_whitelist_only_witness :
  run remote_handler (TranslateToRemotePod web) empty_remote
    = run remote_handler (TranslateToRemotePod web_bare) empty_remote.
Proof.
  apply (TranslateToRemotePod_reads_whitelist_only remote_handler empty_remote web web_bare);
    [reflexivity | reflexivity | reflexivity |].
  repeat constructor.
Defined.

(** Translating the pod that the translation built changes nothing: the
    built pod is a fixed point of the construction, and running the
    translation on it gives the same run as on the host pod. *)
Theorem TranslateToRemotePod_idempotent {S} (h : handler S) (s : S) (pod : Pod.t) :
  new_remote_pod (new_remote_pod pod) = new_remote_pod pod ∧
  run h (TranslateToRemotePod (new_remote_pod pod)) s = run h (TranslateToRemotePod pod) s.
Proof.
  assert (Hfix : new_remote_pod (new_remote_pod pod) = new_remote_pod pod).
  { apply new_remote_pod_same_whitelist; try reflexivity.
    cbn. rewrite translate_containers_app. cbn.
    induction (PodSpec.Containers (Pod.Spec pod)) as [| c cs IH]; cbn;
      constructor; [repeat split | exact IH]. }
  split; [exact Hfix |].
  rewrite !run_TranslateToRemotePod. cbn [fst snd]. by rewrite Hfix.
Qed.

(** ** Creating *)

Section Creating.
Context {S : Type} (h : handler S).
Variables (p : PocProvider.t) (ctx : Context).

(** [CreatePod], unfolded into the lookup, the test and the create call. *)
Lemma run_CreatePod (pod : Pod.t) (s : S) :
  run h (CreatePod p ctx pod) s =
    let tr := run h (TranslateToRemotePod pod) s in
    let ans := h (PodsCreate (Pod.Namespace pod) tr.1.1.1) tr.1.2 in
    (ans.1.2, ans.2,
     [PodsGet (Pod.Namespace pod) (Pod.Name pod) GetOptions.zero;
      PodsCreate (Pod.Namespace pod) tr.1.1.1]).
Proof.
  unfold CreatePod. rewrite run_bind, run_TranslateToRemotePod. cbn [fst snd].
  set (look := h (PodsGet (Pod.Namespace pod) (Pod.Name pod) GetOptions.zero) s).
  destruct (Nat.eqb _ 0); cbn [fst snd]; rewrite run_bind; unfold call; cbn [run];
    destruct (h _ look.2) as [[created err] s']; reflexivity.
Qed.

Lemma run_UpdatePod (pod : Pod.t) (s : S) :
  run h (UpdatePod p ctx pod) s =
    let tr := run h (TranslateToRemotePod pod) s in
    let ans := h (PodsUpdate (Pod.Namespace pod) tr.1.1.1) tr.1.2 in
    (None, ans.2,
     [PodsGet (Pod.Namespace pod) (Pod.Name pod) GetOptions.zero;
      PodsUpdate (Pod.Namespace pod) tr.1.1.1]).
Proof.
  unfold UpdatePod. rewrite run_bind, run_TranslateToRemotePod. cbn [fst snd].
  set (look := h (PodsGet (Pod.Namespace pod) (Pod.Name pod) GetOptions.zero) s).
  destruct (Nat.eqb _ 0); cbn [fst snd UpdatePod_after]; rewrite run_bind; unfold call;
    cbn [run]; destruct (h _ look.2) as [[updated err] s']; reflexivity.
Qed.

End Creating.

(** CreatePod always sends the create call, also when the lookup found the
    pod: it issues the lookup and then one create, in the host pod's
    namespace, of the pod the translation returned, and its result is the
    error of that create call, unchanged, nil included. *)
Theorem CreatePod_returns_create_error {S} (h : handler S) (s : S) (p : PocProvider.t)
    (ctx : Context) (pod : Pod.t) :
  let translated := (result h (TranslateToRemotePod pod) s).1 in
  let answer := h (PodsCreate (Pod.Namespace pod) translated)
                  (final h (TranslateToRemotePod pod) s) in
  issued h (CreatePod p ctx pod) s
    = [PodsGet (Pod.Namespace pod) (Pod.Name pod) GetOptions.zero;
       PodsCreate (Pod.Namespace pod) translated] ∧
  result h (CreatePod p ctx pod) s = answer.1.2 ∧
  final h (CreatePod p ctx pod) s = answer.2.
Proof. cbn zeta. unfold issued, result, final. rewrite run_CreatePod. repeat split. Qed.

(** When the remote pod exists, CreatePod and UpdatePod send back the pod
    that the lookup fetched: nothing of the host pod but its namespace and
    name reaches the remote side, so two host pods with the same namespace
    and name give the same runs. *)
Theorem existing_pod_resubmitted {S} (h : handler S) (s : S) (p : PocProvider.t)
    (ctx : Context) (pod pod' : Pod.t) :
  String.length (Pod.Name (lookup h s (Pod.Namespace pod) (Pod.Name pod)).1) ≠ 0%nat →
  Pod.Namespace pod' = Pod.Namespace pod →
  Pod.Name pod' = Pod.Name pod →
  issued h (CreatePod p ctx pod) s
    = [PodsGet (Pod.Namespace pod) (Pod.Name pod) GetOptions.zero;
       PodsCreate (Pod.Namespace pod) (lookup h s (Pod.Namespace pod) (Pod.Name pod)).1] ∧
  issued h (UpdatePod p ctx pod) s
    = [PodsGet (Pod.Namespace pod) (Pod.Name pod) GetOptions.zero;
       PodsUpdate (Pod.Namespace pod) (lookup h s (Pod.Namespace pod) (Pod.Name pod)).1] ∧
  run h (CreatePod p ctx pod') s = run h (CreatePod p ctx pod) s ∧
  run h (UpdatePod p ctx pod') s = run h (UpdatePod p ctx pod) s.
Proof.
  intros Hname Hns Hn. unfold issued, lookup in *.
  rewrite !run_CreatePod, !run_UpdatePod, !run_TranslateToRemotePod. cbn [fst snd].
  rewrite Hns, Hn. apply Nat.eqb_neq in Hname. rewrite Hname. repeat split.
Qed.

Lemma existing_pod_resubmitted_witness :
  issued remote_handler (CreatePod provider background web) busy_remote
    = [PodsGet "default" "web" GetOptions.zero; PodsCreate "default" remote_web] ∧
  issued remote_handler (UpdatePod provider background web) busy_remote
    = [PodsGet "default" "web" GetOptions.zero; PodsUpdate "default" remote_web] ∧
  run remote_handler (CreatePod provider background web_bare) busy_remote
    = run remote_handler (CreatePod provider background web) busy_remote ∧
  run remote_handler (UpdatePod provider background web_bare) busy_remote
    = run remote_handler (UpdatePod provider background web) busy_remote.
Proof.
  apply (existing_pod_resubmitted remote_handler busy_remote provider background web web_bare);
    [vm_compute; discriminate | reflexivity | reflexivity].
Defined.

(** ** Merging the remote pod into the host pod *)

(** UpdateToLocalPod makes one lookup and returns its error as it is.  The
    metadata of the host pod is never touched; after a failed lookup the
    host pod comes back unchanged, after a successful one its spec and its
    status are those of the fetched pod. *)
Theorem UpdateToLocalPod_merges {S} (h : handler S) (s : S) (pod : Pod.t) :
  let fetched := lookup h s (Pod.Namespace pod) (Pod.Name pod) in
  let merged := result h (UpdateToLocalPod pod) s in
  issued h (UpdateToLocalPod pod) s
    = [PodsGet (Pod.Namespace pod) (Pod.Name pod) GetOptions.zero] ∧
  merged.2 = fetched.2 ∧
  Pod.TypeMeta merged.1 = Pod.TypeMeta pod ∧
  Pod.ObjectMeta merged.1 = Pod.ObjectMeta pod ∧
  (fetched.2 ≠ None → merged.1 = pod) ∧
  (fetched.2 = None →
     Pod.Spec merged.1 = Pod.Spec fetched.1 ∧ Pod.Status merged.1 = Pod.Status fetched.1).
Proof.
  cbn zeta. unfold issued, result, lookup, UpdateToLocalPod.
  rewrite run_bind. unfold call. cbn [run].
  destruct (h _ s) as [[rpod [e |]] s']; cbn; repeat split; try done.
Qed.

(** ** More on the lookups *)

(** GetPod returns a pod exactly when it returns no error: never both,
    never neither. *)
Theorem GetPod_pod_or_error {S} (h : handler S) (s : S) (p : PocProvider.t) (ctx : Context)
    (namespace name : string) :
  (result h (GetPod p ctx namespace name) s).1 = None
    ↔ (result h (GetPod p ctx namespace name) s).2 ≠ None.
Proof.
  unfold result. rewrite run_GetPod. cbn [fst snd].
  destruct (h _ s) as [[pod [e |]] s']; cbn; split; done.
Qed.

Lemma GetPod_found_witness :
  result remote_handler (GetPod provider background "prod" "db") busy_remote
    = (Some (lookup remote_handler busy_remote "prod" "db").1, None) ∧
  result remote_handler (GetPodStatus provider background "prod" "db") busy_remote
    = (Pod.Status (lookup remote_handler busy_remote "prod" "db").1, None).
Proof.
  apply (GetPod_found remote_handler provider background "prod" "db" busy_remote).
  reflexivity.
Defined.

(** ** More on listing *)

Lemma alloc_fresh (m : heap) : m !! alloc m = None.
Proof. apply not_elem_of_dom. unfold alloc. apply is_fresh. Qed.

(** When the list call fails, GetPods returns the nil slice and the error
    of the call, and leaves the memory as it found it. *)
Theorem GetPods_list_error {S} (h : handler S) (s : S) (p : PocProvider.t) (ctx : Context)
    (m : heap) (e : error) :
  (h (PodsList "" {| ListOptions.LabelSelector := "";
                     ListOptions.FieldSelector := owner_selector;
                     ListOptions.Limit := 0 |}) s).1.2 = Some e →
  result h (GetPods p ctx m) s = ([], Some e, m).
Proof.
  intros Herr. unfold result, GetPods. rewrite run_bind. unfold call. cbn [run].
  destruct (h _ s) as [[list err] s']. cbn in Herr. subst err. reflexivity.
Qed.

Lemma GetPods_list_error_witness :
  result remote_handler (GetPods provider background ∅) unreachable_remote
    = ([], Some (ErrTransport "dial tcp 10.1.0.1:443: i/o timeout"), ∅).
Proof.
  apply (GetPods_list_error remote_handler unreachable_remote provider background ∅).
  reflexivity.
Defined.

(** GetPods writes to no location that was in use before the call: what
    was in memory is still there, unchanged, and every pointer it returns
    is to a location that was free.  On success it returns as many pointers
    as the list has items. *)
Theorem GetPods_frame {S} (h : handler S) (s : S) (p : PocProvider.t) (ctx : Context)
    (m : heap) :
  let answer := (h (PodsList "" {| ListOptions.LabelSelector := "";
                                   ListOptions.FieldSelector := owner_selector;
                                   ListOptions.Limit := 0 |}) s).1 in
  let r := result h (GetPods p ctx m) s in
  (∀ (l : loc) (v : Pod.t), m !! l = Some v → r.2 !! l = Some v) ∧
  (∀ l : loc, l ∈ r.1.1 → m !! l = None) ∧
  r.1.2 = answer.2 ∧
  (answer.2 = None → length r.1.1 = length (PodList.Items answer.1)).
Proof.
  cbn zeta. unfold result, GetPods. rewrite run_bind. unfold call. cbn [run].
  destruct (h _ s) as [[list [e |]] s']; cbn.
  - repeat split; try done. intros l Hl. by apply elem_of_nil in Hl.
  - rewrite range_items_spec. cbn. repeat split.
    + intros l v Hl.
      assert (Hne : alloc m ≠ l) by (intros <-; by rewrite alloc_fresh in Hl).
      destruct (last (PodList.Items list)); by rewrite !lookup_insert_ne.
    + intros l Hl. apply elem_of_replicate in Hl as [-> _]. apply alloc_fresh.
    + intros _. apply length_replicate.
Qed.

Lemma GetPods_aliased_witness :
  ∃ m' : heap,
    result remote_handler (GetPods provider background ∅) busy_remote
      = (replicate 2 (alloc ∅), None, m') ∧
    deref m' (replicate 2 (alloc ∅)) = replicate 2 (Some remote_db).
Proof.
  apply (GetPods_aliased remote_handler busy_remote provider background ∅
           {| PodList.TypeMeta := TypeMeta.zero;
              PodList.ResourceVersion := "";
              PodList.Items := [remote_web; remote_db] |} remote_db);
    reflexivity.
Defined.

(** ** The node conditions *)

(** Whatever the provider, the context and the clock, NodeConditions
    reports six conditions of six different types, each either true or
    false; the true ones are exactly Ready and KubeletConfigOk, so the node
    is ready and under no pressure; all of them carry the two times read by
    this call. *)
Theorem NodeConditions_healthy (p : PocProvider.t) (ctx : Context) (heartbeat transition : Z) :
  let conditions := NodeConditions p ctx heartbeat transition in
  length conditions = 6%nat ∧
  NoDup (NodeCondition.Type_ <$> conditions) ∧
  (∃ c, c ∈ conditions ∧ NodeCondition.Type_ c = NodeReady
        ∧ NodeCondition.Status c = ConditionTrue) ∧
  Forall (λ c,
      (NodeCondition.Status c = ConditionTrue ∨ NodeCondition.Status c = ConditionFalse) ∧
      (NodeCondition.Status c = ConditionTrue
         ↔ NodeCondition.Type_ c = NodeReady ∨ NodeCondition.Type_ c = "KubeletConfigOk") ∧
      NodeCondition.LastHeartbeatTime c = heartbeat ∧
      NodeCondition.LastTransitionTime c = transition) conditions.
Proof.
  cbn zeta. unfold NodeConditions. split; [reflexivity |].
  split; [cbn; compute_done |].
  split; [eexists; split; [apply list_elem_of_here |]; split; reflexivity |].
  repeat apply Forall_cons_2; [.. | apply Forall_nil_2]; cbn;
    (split; [auto |]); (split; [| split; reflexivity]);
    (split; [intros H; (discriminate H || auto) | intros [H | H]; (discriminate H || reflexivity)]).
Qed.

(** * Properties of the helpers *)

(** ** [InArray] *)

Section InArrayFacts.
Context {value : Type} (DeepEqual : value → value → bool).

(** The loop entered at index [i]: either it reports the first element
    equal to the needle, at its index, or no element is equal and it
    reports [(false, 0)]. *)
Lemma InArray_from_cases (niddle : value) (hs : list value) (i : nat) :
  (∃ (k : nat) (x : value),
      InArray_from DeepEqual niddle hs i = (true, (i + k)%nat) ∧
      hs !! k = Some x ∧ DeepEqual niddle x = true ∧
      ∀ (j : nat) (y : value), (j < k)%nat → hs !! j = Some y → DeepEqual niddle y = false)
  ∨ (InArray_from DeepEqual niddle hs i = (false, 0%nat) ∧
     Forall (λ y, DeepEqual niddle y = false) hs).
Proof.
  revert i. induction hs as [| x rest IH]; intros i; cbn [InArray_from].
  - right. split; [reflexivity | constructor].
  - destruct (DeepEqual niddle x) eqn:Hx.
    + left. exists 0%nat, x. rewrite Nat.add_0_r. repeat split; try done.
      intros j y Hj. lia.
    + destruct (IH (S i)) as [(k & x' & Hres & Hk & Heq & Hfirst) | [Hres Hnone]].
      * left. exists (S k), x'. replace (i + S k)%nat with (S i + k)%nat by lia.
        repeat split; try done.
        intros [| j] y Hj Hy; cbn in Hy; [by injection Hy as <- |].
        apply (Hfirst j y); [lia | done].
      * right. split; [done | by constructor].
Qed.

End InArrayFacts.

(** When InArray reports a match at index [i], the haystack is a slice or
    an array, its element at [i] is deeply equal to the needle, and no
    element before [i] is: the index is that of the first match. *)
Theorem InArray_first_match {value} (DeepEqual : value → value → bool) (niddle : value)
    (h : haystack value) (i : nat) :
  InArray DeepEqual niddle h = Some (true, i) →
  ∃ (hs : list value) (x : value),
    (h = Slice hs ∨ h = Array hs) ∧
    hs !! i = Some x ∧ DeepEqual niddle x = true ∧
    ∀ (j : nat) (y : value), (j < i)%nat → hs !! j = Some y → DeepEqual niddle y = false.
Proof.
  intros Hres.
  assert (Hseq : ∀ hs, InArray_from DeepEqual niddle hs 0 = (true, i) →
            ∃ x, hs !! i = Some x ∧ DeepEqual niddle x = true ∧
              ∀ (j : nat) (y : value), (j < i)%nat → hs !! j = Some y →
                DeepEqual niddle y = false).
  { intros hs Hfrom.
    destruct (InArray_from_cases DeepEqual niddle hs 0)
      as [(k & x & Hk & Hx & Heq & Hfirst) | [Hnone _]]; [| congruence].
    rewrite Hfrom in Hk. injection Hk as ->. eauto. }
  destruct h as [hs | hs | v |]; cbn in Hres; try discriminate.
  - injection Hres as Hfrom. destruct (Hseq hs Hfrom) as (x & ?). exists hs, x. eauto.
  - injection Hres as Hfrom. destruct (Hseq hs Hfrom) as (x & ?). exists hs, x. eauto.
Qed.

Lemma InArray_first_match_witness :
  ∃ (hs : list string) (x : string),
    (Slice ["cpu"; "pods"; "memory"; "pods"] = Slice hs
     ∨ Slice ["cpu"; "pods"; "memory"; "pods"] = Array hs) ∧
    hs !! 1%nat = Some x ∧ String.eqb "pods" x = true ∧
    ∀ (j : nat) (y : string), (j < 1)%nat → hs !! j = Some y → String.eqb "pods" y = false.
Proof.
  apply (InArray_first_match String.eqb "pods" (Slice ["cpu"; "pods"; "memory"; "pods"]) 1).
  reflexivity.
Defined.

(** InArray finds the needle in a slice exactly when some element is
    deeply equal to it, and it answers [(false, 0)] exactly when none is:
    the index 0 alone does not tell a miss from a match at the head.  An
    array is searched like a slice, a haystack of any other kind gives
    [(false, 0)], and the nil interface makes it panic. *)
Theorem InArray_found_iff {value} (DeepEqual : value → value → bool) (niddle : value)
    (hs : list value) (v : value) :
  ((∃ i, InArray DeepEqual niddle (Slice hs) = Some (true, i))
     ↔ Exists (λ y, DeepEqual niddle y = true) hs) ∧
  (InArray DeepEqual niddle (Slice hs) = Some (false, 0%nat)
     ↔ Forall (λ y, DeepEqual niddle y = false) hs) ∧
  InArray DeepEqual niddle (Array hs) = InArray DeepEqual niddle (Slice hs) ∧
  InArray DeepEqual niddle (OtherKind v) = Some (false, 0%nat) ∧
  InArray DeepEqual niddle NilInterface = None.
Proof.
  assert (Hclash : Exists (λ y, DeepEqual niddle y = true) hs →
            Forall (λ y, DeepEqual niddle y = false) hs → False).
  { rewrite Exists_exists, Forall_forall. intros (y & Hy & Ht) Hall.
    specialize (Hall y Hy). congruence. }
  assert (Hex : ∀ k x, hs !! k = Some x → DeepEqual niddle x = true →
            Exists (λ y, DeepEqual niddle y = true) hs).
  { intros k x Hk Hx. apply Exists_exists. exists x. split; [| done].
    by apply list_elem_of_lookup_2 in Hk. }
  cbn [InArray].
  destruct (InArray_from_cases DeepEqual niddle hs 0)
    as [(k & x & Hres & Hk & Hx & _) | [Hres Hnone]]; rewrite Hres; cbn [Nat.add].
  - repeat split; try done.
    + intros _. eauto.
    + intros _. eauto.
    + intros Hall. exfalso. eauto.
  - repeat split; try done.
    + intros [i Hi]. discriminate Hi.
    + intros Hsome. exfalso. eauto.
Qed.

(** ** [GetEnvWithDefault] *)

(** GetEnvWithDefault returns the value of a variable that is set to a
    non-empty string, and the default otherwise: a variable set to the
    empty string counts as not set.  Its result is empty only if both the
    variable and the default are. *)
Theorem GetEnvWithDefault_cases (environ : gmap string string) (envName def : string) :
  (∀ v, environ !! envName = Some v → v ≠ "" → GetEnvWithDefault environ envName def = v) ∧
  (environ !! envName = None → GetEnvWithDefault environ envName def = def) ∧
  (environ !! envName = Some "" → GetEnvWithDefault environ envName def = def) ∧
  (GetEnvWithDefault environ envName def = ""
     ↔ def = "" ∧ (environ !! envName = None ∨ environ !! envName = Some "")).
Proof.
  unfold GetEnvWithDefault, Getenv.
  split; [| split; [| split]].
  - intros v -> Hne. cbn. by rewrite decide_False.
  - intros ->. reflexivity.
  - intros ->. reflexivity.
  - destruct (environ !! envName) as [v |]; cbn.
    + destruct (decide (v = "")) as [-> | Hne].
      * split; [intros ->; auto | by intros [-> _]].
      * split; [intros ->; done | intros [_ [Hnone | [= ->]]]; done].
    + destruct (decide ("" = "")) as [_ | Hne]; [| done].
      split; [intros ->; auto | by intros [-> _]].
Qed.

(** ** [CommaStrToSlice] *)

Lemma trim_all_app (TrimSpace : string → string) (tmp result : list string) :
  trim_all TrimSpace tmp result = result ++ (TrimSpace <$> tmp).
Proof.
  revert result. induction tmp as [| s rest IH]; intros result; cbn.
  - by rewrite app_nil_r.
  - by rewrite IH, <- app_assoc.
Qed.

Lemma Split_length (s : string) (sep : ascii) :
  length (Split s sep)
    = S (length (List.filter (λ c, bool_decide (c = sep)) (list_ascii_of_string s))).
Proof.
  induction s as [| c rest IH]; cbn; [reflexivity |].
  destruct (decide (c = sep)) as [-> | Hne].
  - rewrite bool_decide_eq_true_2 by done. cbn. by rewrite IH.
  - rewrite bool_decide_eq_false_2 by done.
    destruct (Split rest sep) as [| piece pieces]; [discriminate IH | exact IH].
Qed.

Lemma Split_no_sep (s : string) (sep : ascii) :
  Forall (λ piece, sep ∉ list_ascii_of_string piece) (Split s sep).
Proof.
  induction s as [| c rest IH]; cbn.
  - repeat constructor. cbn. apply not_elem_of_nil.
  - destruct (decide (c = sep)) as [-> | Hne].
    + constructor; [cbn; apply not_elem_of_nil | exact IH].
    + destruct (Split rest sep) as [| piece pieces].
      * repeat constructor. cbn. rewrite elem_of_cons. intros [-> | H]; [done |].
        by apply elem_of_nil in H.
      * inversion IH as [| ? ? Hpiece Hpieces]; subst. constructor; [| done].
        cbn. rewrite elem_of_cons. intros [-> | H]; done.
Qed.

(** CommaStrToSlice returns one element more than the string has commas,
    so never an empty slice: the empty string gives one element.  Each
    element is the trimmed form of a piece that holds no comma. *)
Theorem CommaStrToSlice_pieces (TrimSpace : string → string) (str : string) :
  length (CommaStrToSlice TrimSpace str)
    = S (length (List.filter (λ c, bool_decide (c = ","%char)) (list_ascii_of_string str))) ∧
  CommaStrToSlice TrimSpace "" = [TrimSpace ""] ∧
  Forall (λ out, ∃ piece, out = TrimSpace piece ∧ ","%char ∉ list_ascii_of_string piece)
         (CommaStrToSlice TrimSpace str).
Proof.
  unfold CommaStrToSlice. rewrite !trim_all_app. cbn [app].
  split; [by rewrite length_fmap, Split_length |]. split; [reflexivity |].
  apply Forall_fmap. eapply Forall_impl; [apply Split_no_sep |].
  intros piece Hpiece. cbn. eauto.
Qed.

(** A list of resource names as an operator would write it. *)
Example CommaStrToSlice_resources :
  CommaStrToSlice ascii_TrimSpace "cpu, memory ,pods,, " = ["cpu"; "memory"; "pods"; ""; ""].
Proof. reflexivity. Qed.

(** * Properties of the start-up *)

Section ClientFacts.
Context {RestConfig Clientset : Type} (w : platform RestConfig Clientset).

Lemma GetConfigOutOfCluster_cases (kubeconfigPath : string) :
  GetConfigOutOfCluster w kubeconfigPath =
    let path := if decide (kubeconfigPath = "")
                then Getenv (environ w) "KUBE_CONFIG_PATH" else kubeconfigPath in
    if decide (path = "") then Exits FatalMissingKubeConfigPath
    else match BuildConfigFromFlags w "" path with
         | inl config => Returns config
         | inr err => Exits (FatalOutOfClusterConfig err)
         end.
Proof.
  unfold GetConfigOutOfCluster. destruct kubeconfigPath as [| c rest]; reflexivity.
Qed.

Lemma GetConfigOutOfCluster_Returns (kubeconfigPath : string) (config : RestConfig) :
  GetConfigOutOfCluster w kubeconfigPath = Returns config →
  ∃ path, path ≠ "" ∧ BuildConfigFromFlags w "" path = inl config ∧
    (kubeconfigPath ≠ "" → path = kubeconfigPath) ∧
    (kubeconfigPath = "" → environ w !! "KUBE_CONFIG_PATH" = Some path).
Proof.
  rewrite GetConfigOutOfCluster_cases. cbn zeta. unfold Getenv.
  destruct (decide (kubeconfigPath = "")) as [-> | Hpath].
  - destruct (environ w !! "KUBE_CONFIG_PATH") as [path |] eqn:Henv; cbn.
    + destruct (decide (path = "")) as [-> | Hne]; [discriminate |].
      destruct (BuildConfigFromFlags w "" path) as [built | err] eqn:Hbuild;
        [| discriminate].
      intros [= <-]. exists path. repeat split; done.
    + destruct (decide ("" = "")) as [_ | Hne]; [discriminate | done].
  - rewrite decide_False by done.
    destruct (BuildConfigFromFlags w "" kubeconfigPath) as [built | err] eqn:Hbuild;
      [| discriminate].
    intros [= <-]. exists kubeconfigPath. repeat split; done.
Qed.

Lemma GetConfigOutOfCluster_missing (kubeconfigPath : string) :
  GetConfigOutOfCluster w kubeconfigPath = Exits FatalMissingKubeConfigPath
    ↔ kubeconfigPath = "" ∧ Getenv (environ w) "KUBE_CONFIG_PATH" = "".
Proof.
  rewrite GetConfigOutOfCluster_cases. cbn zeta.
  destruct (decide (kubeconfigPath = "")) as [-> | Hpath].
  - destruct (decide (Getenv (environ w) "KUBE_CONFIG_PATH" = "")) as [Henv | Henv].
    + split; done.
    + destruct (BuildConfigFromFlags w "" _); split; try done; by intros [_ ?].
  - rewrite decide_False by done.
    destruct (BuildConfigFromFlags w "" _); split; try done; by intros [? _].
Qed.

Lemma GetConfigOutOfCluster_not_Panics (kubeconfigPath : string) :
  GetConfigOutOfCluster w kubeconfigPath ≠ Panics.
Proof.
  rewrite GetConfigOutOfCluster_cases. cbn zeta.
  destruct (decide (kubeconfigPath = ""));
    (destruct (decide (_ = "")); [done |]); destruct (BuildConfigFromFlags w "" _); done.
Qed.

Lemma GetClient_not_Panics (configType path : string) :
  GetClient w configType path ≠ Panics.
Proof.
  unfold GetClient. destruct (decide (configType = "out")).
  - pose proof (GetConfigOutOfCluster_not_Panics path) as Hnp.
    destruct (GetConfigOutOfCluster w path) as [built | f |]; cbn; try done.
    unfold CreateClient. destruct (NewForConfig w built); done.
  - unfold GetConfigInCluster. destruct (InClusterConfig w) as [built | err]; cbn; [| done].
    unfold CreateClient. destruct (NewForConfig w built); done.
Qed.

End ClientFacts.

(** GetConfigOutOfCluster prefers its argument to the environment: a
    non-empty argument is the path it builds the configuration from, and
    KUBE_CONFIG_PATH is used only for an empty one.  It never builds from an
    empty path, and it ends the process for a missing path exactly when the
    argument is empty and the variable is unset or empty. *)
Theorem GetConfigOutOfCluster_path {RestConfig Clientset} (w : platform RestConfig Clientset)
    (kubeconfigPath : string) :
  (∀ config, GetConfigOutOfCluster w kubeconfigPath = Returns config →
     ∃ path, path ≠ "" ∧ BuildConfigFromFlags w "" path = inl config ∧
       (kubeconfigPath ≠ "" → path = kubeconfigPath) ∧
       (kubeconfigPath = "" → environ w !! "KUBE_CONFIG_PATH" = Some path)) ∧
  (GetConfigOutOfCluster w kubeconfigPath = Exits FatalMissingKubeConfigPath
     ↔ kubeconfigPath = "" ∧ Getenv (environ w) "KUBE_CONFIG_PATH" = "") ∧
  GetConfigOutOfCluster w kubeconfigPath ≠ Panics.
Proof.
  split; [| split].
  - intros config. apply GetConfigOutOfCluster_Returns.
  - apply GetConfigOutOfCluster_missing.
  - apply GetConfigOutOfCluster_not_Panics.
Qed.

(** GetClient goes out of the cluster only for the configuration type
    "out": with any other type, "in" or not, it uses the in-cluster
    configuration and ignores the path, so any two such calls have the same
    outcome. *)
Theorem GetClient_in_cluster_default {RestConfig Clientset}
    (w : platform RestConfig Clientset) (configType configType' path path' : string) :
  configType ≠ "out" →
  configType' ≠ "out" →
  GetClient w configType path = GetClient w configType' path' ∧
  GetClient w configType path = GetClient w "in" "".
Proof.
  intros Hout Hout'. unfold GetClient.
  rewrite !decide_False by done. split; reflexivity.
Qed.

Lemma GetClient_in_cluster_default_witness :
  GetClient laptop "in" "/home/op/.kube/config" = GetClient laptop "cluster" "" ∧
  GetClient laptop "in" "/home/op/.kube/config" = GetClient laptop "in" "".
Proof.
  apply (GetClient_in_cluster_default laptop "in" "cluster" "/home/op/.kube/config" "");
    discriminate.
Defined.

(** A client that GetClient returns was made by [NewForConfig] from a
    configuration that was itself obtained without error; for the type "out"
    that configuration was built from a non-empty path. *)
Theorem GetClient_returns {RestConfig Clientset} (w : platform RestConfig Clientset)
    (configType path : string) (client : Clientset) :
  GetClient w configType path = Returns client →
  ∃ config,
    NewForConfig w config = inl client ∧
    (configType ≠ "out" → InClusterConfig w = inl config) ∧
    (configType = "out" →
       ∃ used, used ≠ "" ∧ BuildConfigFromFlags w "" used = inl config).
Proof.
  unfold GetClient. intros Hret.
  destruct (decide (configType = "out")) as [-> | Hin].
  - destruct (GetConfigOutOfCluster w path) as [config | f |] eqn:Hcfg; try discriminate.
    cbn in Hret. unfold CreateClient in Hret.
    destruct (NewForConfig w config) as [c | err] eqn:Hnew; try discriminate.
    injection Hret as ->. exists config. repeat split; try done.
    intros _.
    destruct (GetConfigOutOfCluster_Returns w path config Hcfg) as (used & Hne & Hbuild & _).
    eauto.
  - unfold GetConfigInCluster in Hret.
    destruct (InClusterConfig w) as [config | err] eqn:Hcfg; try discriminate.
    cbn in Hret. unfold CreateClient in Hret.
    destruct (NewForConfig w config) as [c | err] eqn:Hnew; try discriminate.
    injection Hret as ->. exists config. repeat split; done.
Qed.

Lemma GetClient_returns_witness :
  ∃ config,
    NewForConfig laptop config = inl "/home/op/.kube/config" ∧
    ("out" ≠ "out" → InClusterConfig laptop = inl config) ∧
    ("out" = "out" →
       ∃ used, used ≠ "" ∧ BuildConfigFromFlags laptop "" used = inl config).
Proof.
  apply (GetClient_returns laptop "out" "" "/home/op/.kube/config"). reflexivity.
Defined.

(** ** The configuration file and the constructor *)

Lemma NewConfig_pod_or_error {RestConfig Clientset} (w : platform RestConfig Clientset)
    (cfg : string) :
  (NewConfig w cfg).1 = None ↔ (NewConfig w cfg).2 ≠ None.
Proof.
  unfold NewConfig. destruct (ReadFile w cfg) as [data | err];
    [destruct (yaml_Unmarshal w data) as [err |] |]; cbn; split; done.
Qed.

Lemma NewConfig_zero {RestConfig Clientset} (w : platform RestConfig Clientset)
    (cfg : string) (c : Config.t) :
  (NewConfig w cfg).1 = Some c → c = Config.zero.
Proof.
  unfold NewConfig. destruct (ReadFile w cfg) as [data | err];
    [destruct (yaml_Unmarshal w data) as [err |] |]; cbn; try done.
  by intros [= <-].
Qed.

(** NewConfig returns a configuration exactly when it returns no error,
    the error being that of reading the file or of decoding it; and the
    configuration it returns has both kubeconfig paths empty, whatever the
    file holds. *)
Theorem NewConfig_paths_empty {RestConfig Clientset} (w : platform RestConfig Clientset)
    (cfg : string) :
  ((NewConfig w cfg).1 = None ↔ (NewConfig w cfg).2 ≠ None) ∧
  (∀ err, ReadFile w cfg = inr err → NewConfig w cfg = (None, Some err)) ∧
  (∀ data err, ReadFile w cfg = inl data → yaml_Unmarshal w data = Some err →
     NewConfig w cfg = (None, Some err)) ∧
  (∀ c, (NewConfig w cfg).1 = Some c →
     Config.localKubeConfig c = "" ∧ Config.remoteKubeConfig c = "").
Proof.
  split; [apply NewConfig_pod_or_error |]. split; [| split].
  - unfold NewConfig. by intros err ->.
  - unfold NewConfig. by intros data err -> ->.
  - intros c Hc. by rewrite (NewConfig_zero w cfg c Hc).
Qed.

(** When NewPocProvider returns a provider, the configuration file was
    read and decoded, and both package-level clients were built from the
    kubeconfig named by KUBE_CONFIG_PATH, the remote client and the local
    one alike; the provider reports the operating system, the address and
    the port it was constructed with. *)
Theorem NewPocProvider_started {RestConfig Clientset} (w : platform RestConfig Clientset)
    (g g' : globals Clientset) (config nodeName operatingSystem internalIP : string)
    (daemonEndpointPort : Z) (p : PocProvider.t) (probes : list (Clientset * request)) :
  NewPocProvider w g config nodeName operatingSystem internalIP daemonEndpointPort
    = Returns ((Some p, None), g', probes) →
  ∃ (path : string) (restconfig : RestConfig) (client : Clientset),
    environ w !! "KUBE_CONFIG_PATH" = Some path ∧ path ≠ "" ∧
    BuildConfigFromFlags w "" path = inl restconfig ∧
    NewForConfig w restconfig = inl client ∧
    rc g' = Some client ∧ lc g' = Some client ∧
    probes = [(client, PodsGet "kube-system" "storage-provisioner" GetOptions.zero);
              (client, PodsGet "default" "busybox" GetOptions.zero)] ∧
    (NewConfig w config).2 = None ∧
    PocProvider.nodeName p = nodeName ∧
    OperatingSystem p = operatingSystem ∧
    NodeAddresses p {| deadline := None; cancelled := false |}
      = [ {| NodeAddress.Type_ := NodeInternalIP; NodeAddress.Address := internalIP |} ] ∧
    NodeDaemonEndpoints p {| deadline := None; cancelled := false |}
      = {| NodeDaemonEndpoints.KubeletEndpointPort := daemonEndpointPort |}.
Proof.
  unfold NewPocProvider. intros Hret.
  pose proof (NewConfig_zero w config) as Hzero.
  destruct (NewConfig w config) as [[c |] [err |]] eqn:Hcfg; try discriminate.
  rewrite (Hzero c eq_refl) in Hret. cbn [Config.remoteKubeConfig Config.localKubeConfig
    Config.zero] in Hret.
  destruct (GetClient w "out" "") as [client | f |] eqn:Hclient; try discriminate.
  cbn in Hret. injection Hret as <- <- <-.
  unfold GetClient in Hclient. rewrite decide_True in Hclient by done.
  destruct (GetConfigOutOfCluster w "") as [restconfig | f |] eqn:Hout; try discriminate.
  cbn in Hclient. unfold CreateClient in Hclient.
  destruct (NewForConfig w restconfig) as [c' | err] eqn:Hnew; try discriminate.
  injection Hclient as ->.
  destruct (GetConfigOutOfCluster_Returns w "" restconfig Hout)
    as (path & Hne & Hbuild & _ & Henv).
  exists path, restconfig, client. repeat split; try done. by apply Henv.
Qed.

Lemma NewPocProvider_started_witness :
  ∃ (path restconfig client : string),
    environ laptop !! "KUBE_CONFIG_PATH" = Some path ∧ path ≠ "" ∧
    BuildConfigFromFlags laptop "" path = inl restconfig ∧
    NewForConfig laptop restconfig = inl client ∧
    rc {| rc := Some "/home/op/.kube/config"; lc := Some "/home/op/.kube/config" |}
      = Some client ∧
    lc {| rc := Some "/home/op/.kube/config"; lc := Some "/home/op/.kube/config" |}
      = Some client ∧
    [("/home/op/.kube/config", PodsGet "kube-system" "storage-provisioner" GetOptions.zero);
     ("/home/op/.kube/config", PodsGet "default" "busybox" GetOptions.zero)]
      = [(client, PodsGet "kube-system" "storage-provisioner" GetOptions.zero);
         (client, PodsGet "default" "busybox" GetOptions.zero)] ∧
    (NewConfig laptop "/etc/vk/poc.yaml").2 = None ∧
    PocProvider.nodeName provider = "vk-poc" ∧
    OperatingSystem provider = "Linux" ∧
    NodeAddresses provider {| deadline := None; cancelled := false |}
      = [ {| NodeAddress.Type_ := NodeInternalIP; NodeAddress.Address := "10.0.0.7" |} ] ∧
    NodeDaemonEndpoints provider {| deadline := None; cancelled := false |}
      = {| NodeDaemonEndpoints.KubeletEndpointPort := 10250 |}.
Proof.
  apply (NewPocProvider_started laptop {| rc := None; lc := None |}
           {| rc := Some "/home/op/.kube/config"; lc := Some "/home/op/.kube/config" |}
           "/etc/vk/poc.yaml" "vk-poc" "Linux" "10.0.0.7" 10250 provider
           [("/home/op/.kube/config",
             PodsGet "kube-system" "storage-provisioner" GetOptions.zero);
            ("/home/op/.kube/config", PodsGet "default" "busybox" GetOptions.zero)]).
  reflexivity.
Defined.

(** When the configuration file cannot be read or decoded, NewPocProvider
    returns that error and no provider, builds no client and leaves the two
    package-level clients as they were; in no case does it panic. *)
Theorem NewPocProvider_config_error {RestConfig Clientset}
    (w : platform RestConfig Clientset) (g : globals Clientset)
    (config nodeName operatingSystem internalIP : string) (daemonEndpointPort : Z) :
  (∀ err, (NewConfig w config).2 = Some err →
     NewPocProvider w g config nodeName operatingSystem internalIP daemonEndpointPort
       = Returns ((None, Some err), g, [])) ∧
  NewPocProvider w g config nodeName operatingSystem internalIP daemonEndpointPort ≠ Panics.
Proof.
  unfold NewPocProvider.
  pose proof (NewConfig_pod_or_error w config) as Hxor.
  destruct (NewConfig w config) as [[c |] [err |]] eqn:Hcfg; cbn in *.
  - split; [by intros ? [= <-] | done].
  - split; [done |].
    pose proof (GetClient_not_Panics w "out" (Config.remoteKubeConfig c)) as Hrc.
    pose proof (GetClient_not_Panics w "out" (Config.localKubeConfig c)) as Hlc.
    destruct (GetClient w "out" (Config.remoteKubeConfig c)) as [c1 | f |]; cbn; try done.
    destruct (GetClient w "out" (Config.localKubeConfig c)) as [c2 | f |]; cbn; done.
  - split; [by intros ? [= <-] | done].
  - exfalso. destruct Hxor as [Hxor _]. by apply Hxor.
Qed.

(** With a configuration file that loads, the start-up depends on the
    environment alone: if KUBE_CONFIG_PATH is unset or empty the process is
    ended for a missing kubeconfig path, whatever paths the file names. *)
Theorem NewPocProvider_needs_environment {RestConfig Clientset}
    (w : platform RestConfig Clientset) (g : globals Clientset)
    (config nodeName operatingSystem internalIP : string) (daemonEndpointPort : Z) :
  (NewConfig w config).2 = None →
  Getenv (environ w) "KUBE_CONFIG_PATH" = "" →
  NewPocProvider w g config nodeName operatingSystem internalIP daemonEndpointPort
    = Exits FatalMissingKubeConfigPath.
Proof.
  intros Hcfg Henv. unfold NewPocProvider.
  pose proof (NewConfig_pod_or_error w config) as Hxor.
  pose proof (NewConfig_zero w config) as Hzero.
  destruct (NewConfig w config) as [[c |] [err |]] eqn:Hnew; cbn in *; try discriminate.
  - rewrite (Hzero c eq_refl). cbn. unfold GetClient. rewrite decide_True by done.
    destruct (GetConfigOutOfCluster_missing w "") as [_ Hmissing]. by rewrite Hmissing.
  - exfalso. destruct Hxor as [Hxor _]. by apply Hxor.
Qed.

Lemma NewPocProvider_needs_environment_witness :
  NewPocProvider
    {| environ := ∅;
       ReadFile := ReadFile laptop;
       yaml_Unmarshal := yaml_Unmarshal laptop;
       InClusterConfig := InClusterConfig laptop;
       BuildConfigFromFlags := BuildConfigFromFlags laptop;
       NewForConfig := NewForConfig laptop |}
    {| rc := None; lc := None |} "/etc/vk/poc.yaml" "vk-poc" "Linux" "10.0.0.7" 10250
    = Exits FatalMissingKubeConfigPath.
Proof.
  apply NewPocProvider_needs_environment; reflexivity.
Defined.
